(** * Voice-chat simulation and incremental reallocation client

    A shallow embedding of two parts of the repository:

    - [SimpleVoiceChatDemo] (simple-voice-test.js): the in-memory
      simulation of rooms, users, voice messages and storage PDAs;
    - [ReallocationExample.reallocatePDAToTargetSize]: the client loop that
      grows one PDA account in 10 KiB steps.

    JavaScript [Map]s are finite maps, arrays are lists, numbers are
    integers ([Z]), and a method is a function from the state before the
    call to the state after it together with what the call returned or
    threw.  A method that throws after it has mutated an object leaves the
    mutation in the state it returns. *)

From Stdlib Require Import ZArith Lia.
From stdpp Require Import gmap strings pretty list fin_maps.

(** What a call produced: the returned value, or the thrown error. *)
Inductive outcome (E A : Type) : Type :=
  | Returned (a : A)
  | Thrown (e : E).
Arguments Returned {E A} a.
Arguments Thrown {E A} e.

Definition returned {E A} (o : outcome E A) : bool :=
  match o with Returned _ => true | Thrown _ => false end.

Module VoiceChat.

Local Open Scope Z_scope.

(** ** Data model

    The objects stored in the four maps of [SimpleVoiceChatDemo]. *)

Record User : Type := mkUser {
  user_id : string;
  user_name : string;
  joinedRooms : list string;
  messagesSent : Z
}.

Record Room : Type := mkRoom {
  room_id : string;
  room_name : string;
  host : string;
  participants : list string;
  isActive : bool;
  createdAt : Z;
  lastActivity : Z;
  messageCount : Z
}.

Record Message : Type := mkMessage {
  message_id : string;
  sender : string;
  roomId : string;
  voiceData : list Z;
  targetPDAIndex : Z;
  sequenceNumber : Z;
  dataLength : Z;
  timestamp : Z
}.

Record StoragePDA : Type := mkStoragePDA {
  index : Z;
  capacity : Z;
  used : Z;
  pda_messages : list string
}.

(** The storage map is keyed in the source by the string [pda_<index>],
    which is one-to-one in the index; the model keys it by the index. *)
Record Demo : Type := mkDemo {
  rooms : gmap string Room;
  messages : gmap string Message;
  storage : gmap Z StoragePDA;
  users : gmap string User
}.

(** [new SimpleVoiceChatDemo()]. *)
Definition newDemo : Demo :=
  {| rooms := ∅; messages := ∅; storage := ∅; users := ∅ |}.

(** The errors the methods throw, named after their kind; the message of the
    source is quoted at each.  [TypeError] is the runtime error of reading a
    property of [undefined]. *)
Inductive error : Type :=
  | NotFound          (* "Room not found", "Room or user not found" *)
  | InactiveRoom      (* "Room is not active" *)
  | AlreadyMember     (* "User already in room" *)
  | RoomFull          (* "Room is full (max 10 participants)" *)
  | NotMember         (* "User not in room" *)
  | PayloadTooLarge   (* "Voice data too large (max 29KB)" *)
  | SlotFull (pdaIndex : Z)   (* "Storage PDA <index> full" *)
  | TooManyTargets    (* "Too many target PDAs (max 10)" *)
  | TypeError.

(** What one method call reads from its environment: the suffix
    [<Date.now()>_<random>] of the identifier it generates, and the values
    of the first and the second [new Date()] it evaluates. *)
Record Draw : Type := mkDraw {
  nonce : string;
  date1 : Z;
  date2 : Z
}.

Definition userIdOf (d : Draw) : string := "user_" +:+ nonce d.
Definition roomIdOf (d : Draw) : string := "room_" +:+ nonce d.
Definition messageIdOf (d : Draw) : string := "msg_" +:+ nonce d.

(** ** Array helpers *)

(** [Array.prototype.indexOf]: the first position of [x]; [None] is [-1]. *)
Fixpoint indexOf (x : string) (l : list string) : option nat :=
  match l with
  | [] => None
  | y :: l' => if decide (y = x) then Some 0%nat else S <$> indexOf x l'
  end.

(** [Array.prototype.includes]. *)
Definition includes (x : string) (l : list string) : bool :=
  bool_decide (x ∈ l).

(** [arr.splice(i, 1)]: the array without its element at position [i]. *)
Definition splice1 (i : nat) (l : list string) : list string := delete i l.

(** ** Record updates *)

Definition room_joined (userId : string) (now : Z) (room : Room) : Room :=
  {| room_id := room_id room; room_name := room_name room; host := host room;
     participants := participants room ++ [userId];
     isActive := isActive room; createdAt := createdAt room;
     lastActivity := now; messageCount := messageCount room |}.

Definition room_sent (now : Z) (room : Room) : Room :=
  {| room_id := room_id room; room_name := room_name room; host := host room;
     participants := participants room;
     isActive := isActive room; createdAt := createdAt room;
     lastActivity := now; messageCount := messageCount room + 1 |}.

Definition room_left (i : nat) (now : Z) (room : Room) : Room :=
  let ps := splice1 i (participants room) in
  {| room_id := room_id room; room_name := room_name room; host := host room;
     participants := ps;
     isActive := if decide (length ps = 0%nat) then false else isActive room;
     createdAt := createdAt room;
     lastActivity := now; messageCount := messageCount room |}.

Definition user_joined (roomId : string) (user : User) : User :=
  {| user_id := user_id user; user_name := user_name user;
     joinedRooms := joinedRooms user ++ [roomId];
     messagesSent := messagesSent user |}.

Definition user_sent (user : User) : User :=
  {| user_id := user_id user; user_name := user_name user;
     joinedRooms := joinedRooms user;
     messagesSent := messagesSent user + 1 |}.

Definition user_left (roomId : string) (user : User) : User :=
  {| user_id := user_id user; user_name := user_name user;
     joinedRooms :=
       match indexOf roomId (joinedRooms user) with
       | Some j => splice1 j (joinedRooms user)
       | None => joinedRooms user
       end;
     messagesSent := messagesSent user |}.

Definition with_rooms (s : Demo) (rs : gmap string Room) : Demo :=
  {| rooms := rs; messages := messages s; storage := storage s; users := users s |}.

Definition with_users (s : Demo) (us : gmap string User) : Demo :=
  {| rooms := rooms s; messages := messages s; storage := storage s; users := us |}.

(** ** The methods of [SimpleVoiceChatDemo] *)

Definition createUser (d : Draw) (name : string) (s : Demo)
  : Demo * outcome error string :=
  let userId := userIdOf d in
  (with_users s
     (<[userId := {| user_id := userId; user_name := name;
                     joinedRooms := []; messagesSent := 0 |}]> (users s)),
   Returned userId).

(** The room is stored before the host is looked up: with an unknown host
    the read of [user.joinedRooms] throws and the room stays. *)
Definition createRoom (d : Draw) (hostUserId roomName : string) (s : Demo)
  : Demo * outcome error string :=
  let roomId := roomIdOf d in
  let s1 :=
    with_rooms s
      (<[roomId := {| room_id := roomId; room_name := roomName;
                      host := hostUserId; participants := [hostUserId];
                      isActive := true; createdAt := date1 d;
                      lastActivity := date2 d; messageCount := 0 |}]> (rooms s)) in
  match users s1 !! hostUserId with
  | None => (s1, Thrown TypeError)
  | Some user =>
      (with_users s1 (<[hostUserId := user_joined roomId user]> (users s1)),
       Returned roomId)
  end.

(** The user is looked up at the start but first used after the room has
    been updated. *)
Definition joinRoom (d : Draw) (userId roomId : string) (s : Demo)
  : Demo * outcome error unit :=
  match rooms s !! roomId with
  | None => (s, Thrown NotFound)
  | Some room =>
      if negb (isActive room) then (s, Thrown InactiveRoom)
      else if includes userId (participants room) then (s, Thrown AlreadyMember)
      else if (10 <=? Z.of_nat (length (participants room))) then (s, Thrown RoomFull)
      else
        let s1 := with_rooms s (<[roomId := room_joined userId (date1 d) room]> (rooms s)) in
        match users s !! userId with
        | None => (s1, Thrown TypeError)
        | Some user =>
            (with_users s1 (<[userId := user_joined roomId user]> (users s1)),
             Returned tt)
        end
  end.

Definition newStoragePDA (targetPDAIndex : Z) : StoragePDA :=
  {| index := targetPDAIndex; capacity := 30 * 1024; used := 0; pda_messages := [] |}.

(** The checks come first; then the message is stored and the counters of
    room and user are updated; the capacity of the slot is tested last.
    ([targetPDAIndex], 0 by default in the source, is always given here.) *)
Definition sendVoiceMessage (d : Draw) (userId roomId : string)
    (data : list Z) (targetPDAIndex : Z) (s : Demo)
  : Demo * outcome error string :=
  match rooms s !! roomId, users s !! userId with
  | Some room, Some user =>
      if negb (includes userId (participants room)) then (s, Thrown NotMember)
      else if (29 * 1024 <? Z.of_nat (length data)) then (s, Thrown PayloadTooLarge)
      else
        let messageId := messageIdOf d in
        let seqno := messageCount room + 1 in
        (* store message *)
        let msgs :=
          <[messageId := {| message_id := messageId; sender := userId;
                            roomId := roomId; voiceData := data;
                            targetPDAIndex := targetPDAIndex;
                            sequenceNumber := seqno;
                            dataLength := Z.of_nat (length data);
                            timestamp := date1 d |}]> (messages s) in
        (* update room and user stats *)
        let rms := <[roomId := room_sent (date2 d) room]> (rooms s) in
        let usrs := <[userId := user_sent user]> (users s) in
        (* simulate storing in PDA *)
        let '(stor, storagePDA) :=
          match storage s !! targetPDAIndex with
          | Some pda => (storage s, pda)
          | None =>
              (<[targetPDAIndex := newStoragePDA targetPDAIndex]> (storage s),
               newStoragePDA targetPDAIndex)
          end in
        if (capacity storagePDA <? used storagePDA + Z.of_nat (length data)) then
          ({| rooms := rms; messages := msgs; storage := stor; users := usrs |},
           Thrown (SlotFull targetPDAIndex))
        else
          ({| rooms := rms; messages := msgs;
              storage :=
                <[targetPDAIndex :=
                    {| index := index storagePDA; capacity := capacity storagePDA;
                       used := used storagePDA + Z.of_nat (length data);
                       pda_messages := pda_messages storagePDA ++ [messageId] |}]> stor;
              users := usrs |},
           Returned messageId)
  | _, _ => (s, Thrown NotFound)
  end.

(** The loop of [broadcastVoiceMessage]: one [sendVoiceMessage] per target,
    in order; a returned identifier is pushed on [messageIds], a thrown
    error is caught and logged.  [ds i] is what the [i]-th send draws. *)
Fixpoint broadcastLoop (ds : nat -> Draw) (userId roomId : string)
    (data : list Z) (targetPDAs : list Z) (messageIds : list string) (s : Demo)
  : Demo * list string :=
  match targetPDAs with
  | [] => (s, messageIds)
  | pdaIndex :: rest =>
      let '(s1, o) := sendVoiceMessage (ds 0%nat) userId roomId data pdaIndex s in
      let messageIds1 :=
        match o with
        | Returned messageId => messageIds ++ [messageId]
        | Thrown _ => messageIds
        end in
      broadcastLoop (fun i => ds (S i)) userId roomId data rest messageIds1 s1
  end.

Definition broadcastVoiceMessage (ds : nat -> Draw) (userId roomId : string)
    (data : list Z) (targetPDAs : list Z) (s : Demo)
  : Demo * outcome error (list string) :=
  match rooms s !! roomId, users s !! userId with
  | Some _, Some _ =>
      if (10 <? Z.of_nat (length targetPDAs)) then (s, Thrown TooManyTargets)
      else
        let '(s1, messageIds) :=
          broadcastLoop ds userId roomId data targetPDAs [] s in
        (s1, Returned messageIds)
  | _, _ => (s, Thrown NotFound)
  end.

Definition leaveRoom (d : Draw) (userId roomId : string) (s : Demo)
  : Demo * outcome error unit :=
  match rooms s !! roomId, users s !! userId with
  | Some room, Some user =>
      match indexOf userId (participants room) with
      | None => (s, Thrown NotMember)
      | Some participantIndex =>
          ({| rooms := <[roomId := room_left participantIndex (date1 d) room]> (rooms s);
              messages := messages s;
              storage := storage s;
              users := <[userId := user_left roomId user]> (users s) |},
           Returned tt)
      end
  | _, _ => (s, Thrown NotFound)
  end.

(** ** Call sequences

    A client drives the demo through a sequence of method calls. *)

Inductive Call : Type :=
  | CreateUser (d : Draw) (name : string)
  | CreateRoom (d : Draw) (hostUserId roomName : string)
  | JoinRoom (d : Draw) (userId roomId : string)
  | SendVoiceMessage (d : Draw) (userId roomId : string) (data : list Z) (targetPDAIndex : Z)
  | BroadcastVoiceMessage (ds : nat -> Draw) (userId roomId : string)
      (data : list Z) (targetPDAs : list Z)
  | LeaveRoom (d : Draw) (userId roomId : string).

(** The state after a call, and whether the call returned. *)
Definition run (c : Call) (s : Demo) : Demo * bool :=
  match c with
  | CreateUser d name => let r := createUser d name s in (r.1, returned r.2)
  | CreateRoom d h n => let r := createRoom d h n s in (r.1, returned r.2)
  | JoinRoom d u r => let r := joinRoom d u r s in (r.1, returned r.2)
  | SendVoiceMessage d u r data i =>
      let r := sendVoiceMessage d u r data i s in (r.1, returned r.2)
  | BroadcastVoiceMessage ds u r data ts =>
      let r := broadcastVoiceMessage ds u r data ts s in (r.1, returned r.2)
  | LeaveRoom d u r => let r := leaveRoom d u r s in (r.1, returned r.2)
  end.

(** The identifiers [createUser] and [createRoom] generate carry the clock
    and a random suffix; they are taken not to collide with an identifier
    already in use. *)
Definition fresh (c : Call) (s : Demo) : Prop :=
  match c with
  | CreateUser d _ => users s !! userIdOf d = None
  | CreateRoom d _ _ => rooms s !! roomIdOf d = None
  | _ => True
  end.

(** [steps s s']: some sequence of calls, returning or throwing, leads from
    [s] to [s']. *)
Inductive steps (s : Demo) : Demo -> Prop :=
  | steps_refl : steps s s
  | steps_call s' c : steps s s' -> fresh c s' -> steps s (run c s').1.

Definition reachable (s : Demo) : Prop := steps newDemo s.

(** The same, with returning calls only. *)
Inductive steps_ok (s : Demo) : Demo -> Prop :=
  | steps_ok_refl : steps_ok s s
  | steps_ok_call s' c :
      steps_ok s s' -> fresh c s' -> (run c s').2 = true -> steps_ok s (run c s').1.

(** Running a list of calls from a state. *)
Definition runAll (cs : list Call) (s : Demo) : Demo :=
  foldl (fun st c => (run c st).1) s cs.

(** The calls of a list generate fresh identifiers, one after the other. *)
Fixpoint freshAll (cs : list Call) (s : Demo) : Prop :=
  match cs with
  | [] => True
  | c :: cs' => fresh c s /\ freshAll cs' (run c s).1
  end.

(** The same, and every call returns. *)
Fixpoint returnAll (cs : list Call) (s : Demo) : Prop :=
  match cs with
  | [] => True
  | c :: cs' => fresh c s /\ (run c s).2 = true /\ returnAll cs' (run c s).1
  end.

(** ** State predicates *)

(** No storage PDA holds more than its capacity. *)
Definition storage_ok (s : Demo) : Prop :=
  forall i pda, storage s !! i = Some pda -> used pda <= capacity pda.

(** No room has more than 10 participants, and a deactivated room has none. *)
Definition rooms_ok (s : Demo) : Prop :=
  forall r room, rooms s !! r = Some room ->
    (length (participants room) <= 10)%nat
    /\ (isActive room = false -> participants room = []).

Definition deactivated (r : string) (s : Demo) : Prop :=
  exists room, rooms s !! r = Some room /\ isActive room = false.

(** Both membership lists are free of repetitions and each entry of one has
    its counterpart in the other. *)
Definition consistent (s : Demo) : Prop :=
  (forall r room, rooms s !! r = Some room ->
     NoDup (participants room)
     /\ forall u, u ∈ participants room ->
          exists user, users s !! u = Some user /\ r ∈ joinedRooms user)
  /\ (forall u user, users s !! u = Some user ->
       NoDup (joinedRooms user)
       /\ forall r, r ∈ joinedRooms user ->
            exists room, rooms s !! r = Some room /\ u ∈ participants room).

(** The bytes used in a slot; a slot not yet created uses none. *)
Definition usedOf (s : Demo) (i : Z) : Z :=
  match storage s !! i with Some pda => used pda | None => 0 end.

(** [n] more bytes fit in slot [i], created on demand. *)
Definition fits (s : Demo) (i : Z) (n : Z) : Prop :=
  let pda := default (newStoragePDA i) (storage s !! i) in
  used pda + n <= capacity pda.

(** ** Broadcast, target by target

    The sends of a broadcast with the outcome of each one kept, for
    comparison with what [broadcastVoiceMessage] returns. *)
Fixpoint sendEach (ds : nat -> Draw) (userId roomId : string)
    (data : list Z) (targetPDAs : list Z) (s : Demo)
  : Demo * list (outcome error string) :=
  match targetPDAs with
  | [] => (s, [])
  | pdaIndex :: rest =>
      let '(s1, o) := sendVoiceMessage (ds 0%nat) userId roomId data pdaIndex s in
      let '(s2, os) := sendEach (fun i => ds (S i)) userId roomId data rest s1 in
      (s2, o :: os)
  end.

Definition returnedIds (os : list (outcome error string)) : list string :=
  omap (fun o => match o with Returned messageId => Some messageId | Thrown _ => None end) os.

(** ** Scenarios *)

Definition draw (n : string) (t : Z) : Draw := {| nonce := n; date1 := t; date2 := t |}.

Definition alice : string := "user_a".
Definition bob : string := "user_b".
Definition standup : string := "room_s".

(** [generateVoiceData(sizeInBytes)] with every byte drawn as 0. *)
Definition bytes (sizeInBytes : Z) : list Z := replicate (Z.to_nat sizeInBytes) 0.

(** Alice and Bob in one room, as at the start of [runDemo]. *)
Definition demoSetup : list Call :=
  [ CreateUser (draw "a" 1) "Alice";
    CreateUser (draw "b" 2) "Bob";
    CreateRoom (draw "s" 3) alice "Daily Standup";
    JoinRoom (draw "j" 4) bob standup ].

Definition inStandup : Demo := runAll demoSetup newDemo.

(** Slot 0 holds 25000 of its 30720 bytes. *)
Definition slotZeroBusy : Demo :=
  (sendVoiceMessage (draw "m1" 5) alice standup (bytes 25000) 0 inStandup).1.

(** Slot 1 holds 25000 of its 30720 bytes. *)
Definition slotOneBusy : Demo :=
  (sendVoiceMessage (draw "m1" 5) alice standup (bytes 25000) 1 inStandup).1.

Definition busyStandup : Room :=
  {| room_id := standup; room_name := "Daily Standup"; host := alice;
     participants := [alice; bob];
     isActive := true; createdAt := 3; lastActivity := 5; messageCount := 1 |}.

Definition busyAlice : User :=
  {| user_id := alice; user_name := "Alice"; joinedRooms := [standup];
     messagesSent := 1 |}.

(** The draws of a broadcast: the [i]-th send generates [msg_<i>]. *)
Definition numbered (t : Z) (i : nat) : Draw := draw (pretty i) t.

(** Ten users in one room. *)
Definition crowd : list string := ["0"; "1"; "2"; "3"; "4"; "5"; "6"; "7"; "8"; "9"].

Definition fullRoomSetup : list Call :=
  map (fun n => CreateUser (draw n 1) n) crowd
  ++ [CreateRoom (draw "full" 2) "user_0" "Full house"]
  ++ map (fun n => JoinRoom (draw n 3) ("user_" +:+ n) "room_full") (tail crowd).

Definition fullRoom : Demo := runAll fullRoomSetup newDemo.

Definition fullHouse : Room :=
  {| room_id := "room_full"; room_name := "Full house"; host := "user_0";
     participants := map (fun n => "user_" +:+ n) crowd;
     isActive := true; createdAt := 2; lastActivity := 3; messageCount := 0 |}.

(** Alice opens a room, and leaves it again. *)
Definition openedSetup : list Call :=
  [ CreateUser (draw "a" 1) "Alice";
    CreateRoom (draw "s" 3) alice "Daily Standup" ].

Definition opened : Demo := runAll openedSetup newDemo.

Definition openedStandup : Room :=
  {| room_id := standup; room_name := "Daily Standup"; host := alice;
     participants := [alice];
     isActive := true; createdAt := 3; lastActivity := 3; messageCount := 0 |}.

Definition emptiedStandup : Room :=
  {| room_id := standup; room_name := "Daily Standup"; host := alice;
     participants := [];
     isActive := false; createdAt := 3; lastActivity := 4; messageCount := 0 |}.

Definition aliceOpened : User :=
  {| user_id := alice; user_name := "Alice"; joinedRooms := [standup];
     messagesSent := 0 |}.

Definition emptiedSetup : list Call :=
  openedSetup ++ [ LeaveRoom (draw "l" 4) alice standup ].

(** The demo after a send that fills most of slot 1 and a broadcast. *)
Definition broadcastSetup : list Call :=
  demoSetup
  ++ [ SendVoiceMessage (draw "m1" 5) alice standup (bytes 25000) 1;
       BroadcastVoiceMessage (numbered 9) alice standup (bytes 10000) [0; 1; 2] ].

Definition afterBroadcast : Demo := runAll broadcastSetup newDemo.

Definition emptied : Demo := runAll emptiedSetup newDemo.

End VoiceChat.

(** * The reallocation client *)

Module Reallocation.

Local Open Scope Z_scope.

(** [Math.ceil(a / b)] for integers [a] and [b > 0]. *)
Definition ceilDiv (a b : Z) : Z := - ((- a) / b).

(** [const maxIterations = Math.ceil((targetSize - 10240) / 10240)]. *)
Definition maxIterations (targetSize : Z) : Z := ceilDiv (targetSize - 10240) 10240.

(** A JavaScript error, by its message. *)
Record exn : Type := Error { message : string }.

(** [error.message.includes("NoReallocNeeded")]. *)
Definition isNoReallocNeeded (e : exn) : bool :=
  match String.index 0 "NoReallocNeeded" (message e) with
  | Some _ => true
  | None => false
  end.

(** Reading [accountInfo.data] when [getAccountInfo] resolved to [null]. *)
Definition nullData : exn :=
  Error "Cannot read properties of null (reading 'data')".

(** The lines the method prints. *)
Inductive line : Type :=
  | LogStart (targetSize : Z)
  | LogStep (step maxIterations : Z)   (* "Reallocation step <step>/<maxIterations>" *)
  | LogCompleted
  | LogSize (currentSize : Z)
  | LogReached (targetSize : Z)
  | LogAlready
  | LogFinal (finalSize : Z).


Definition isStep (l : line) : bool :=
  match l with LogStep _ _ => true | _ => false end.

(** The number of iterations a log records. *)
Definition iterations (log : list line) : nat := length (filter (fun l => isStep l = true) log).


(** How the loop was left. *)
Inductive loopExit : Type :=
  | Exited               (* condition false, or [break] *)
  | Raised (e : exn)     (* [throw error] *)
  | NoFuel.

(** How the method ended. *)
Inductive status : Type :=
  | Resolved
  | Rejected (e : exn)
  | Unfinished.

Section Client.

(** The ledger and the three remote calls the method makes on it, for one
    account: [reallocatePdaAccount(targetSize)...rpc()],
    [connection.getAccountInfo(pdaAddress)] (the length of the account's
    data, or [None] for [null]) and [getReallocationStepsNeeded], whose
    result is dropped and whose errors are caught and logged. *)
Variable Ledger : Type.
Variable reallocatePdaAccount : Z -> Ledger -> Ledger * outcome exn unit.
Variable getAccountInfo : Ledger -> Ledger * outcome exn (option Z).
Variable getReallocationStepsNeeded : Z -> Ledger -> Ledger.

(** The [catch] of the loop body. *)
Definition caught (e : exn) (w : Ledger) (log : list line)
  : Ledger * list line * loopExit :=
  if isNoReallocNeeded e then (w, log ++ [LogAlready], Exited)
  else (w, log, Raised e).

(** [while (currentIteration < maxIterations) { ... }]; one unit of fuel
    per iteration.  The one-second pause between two steps is left out. *)
Fixpoint reallocLoop (fuel : nat) (targetSize maxIter currentIteration : Z)
    (w : Ledger) (log : list line) : Ledger * list line * loopExit :=
  if currentIteration <? maxIter then
    match fuel with
    | O => (w, log, NoFuel)
    | S fuel' =>
        let log1 := log ++ [LogStep (currentIteration + 1) maxIter] in
        match reallocatePdaAccount targetSize w with
        | (w1, Thrown e) => caught e w1 log1
        | (w1, Returned _) =>
            let log2 := log1 ++ [LogCompleted] in
            match getAccountInfo w1 with
            | (w2, Thrown e) => caught e w2 log2
            | (w2, Returned None) => caught nullData w2 log2
            | (w2, Returned (Some currentSize)) =>
                let log3 := log2 ++ [LogSize currentSize] in
                if targetSize <=? currentSize then
                  (w2, log3 ++ [LogReached targetSize], Exited)
                else
                  reallocLoop fuel' targetSize maxIter (currentIteration + 1) w2 log3
            end
        end
    end
  else (w, log, Exited).

Definition reallocatePDAToTargetSize (fuel : nat) (targetSize : Z) (w : Ledger)
  : Ledger * list line * status :=
  let w0 := getReallocationStepsNeeded targetSize w in
  match reallocLoop fuel targetSize (maxIterations targetSize) 0 w0 [LogStart targetSize] with
  | (w1, log, NoFuel) => (w1, log, Unfinished)
  | (w1, log, Raised e) => (w1, log, Rejected e)
  | (w1, log, Exited) =>
      match getAccountInfo w1 with
      | (w2, Thrown e) => (w2, log, Rejected e)
      | (w2, Returned None) => (w2, log, Rejected nullData)
      | (w2, Returned (Some finalSize)) => (w2, log ++ [LogFinal finalSize], Resolved)
      end
  end.


End Client.

(** ** A ledger to run the client on *)

(** Modelled from the spec: the on-chain program behind
    [reallocatePdaAccount] is not among the sources.  One growth step
    enlarges the account by at most [increment] bytes towards the target and
    is refused with [NoReallocNeeded] when the account is already at or above
    the target.  The ledger is the account's size. *)
Definition chainRealloc (increment : Z) (targetSize : Z) (size : Z)
  : Z * outcome exn unit :=
  if targetSize <=? size then
    (size, Thrown (Error "AnchorError: NoReallocNeeded"))
  else (Z.min targetSize (size + increment), Returned tt).

Definition chainInfo (size : Z) : Z * outcome exn (option Z) :=
  (size, Returned (Some size)).

Definition chainSteps (targetSize : Z) (size : Z) : Z := size.

Definition runOnChain (increment : Z) (fuel : nat) (targetSize size : Z)
  : Z * list line * status :=
  reallocatePDAToTargetSize Z (chainRealloc increment) chainInfo chainSteps
    fuel targetSize size.

End Reallocation.

(** * The rest of the simulation: readers, demo and performance test *)

Module Scripts.
Import VoiceChat.

Local Open Scope Z_scope.

(** ** Sequencing

    A method is a function from the state to the state after it and its
    outcome; a statement sequence runs the next statement in the state the
    previous one left, and stops at the first one that throws. *)

Definition bind {A B : Type} (m : Demo -> Demo * outcome error A)
    (k : A -> Demo -> Demo * outcome error B) : Demo -> Demo * outcome error B :=
  fun s =>
    match m s with
    | (s1, Returned a) => k a s1
    | (s1, Thrown e) => (s1, Thrown e)
    end.

Notation "'call' x <- m ; k" := (bind m (fun x => k))
  (at level 10, x name, m at level 100, k at level 200).

(** ** Readers *)

(** [getVoiceMessage]: the sender and the room of the message are looked up
    for the log; reading [name] of a missing one is a [TypeError]. *)
Definition getVoiceMessage (messageId : string) (s : Demo)
  : Demo * outcome error Message :=
  match messages s !! messageId with
  | None => (s, Thrown NotFound)   (* "Message not found" *)
  | Some message =>
      match users s !! sender message, rooms s !! roomId message with
      | Some _, Some _ => (s, Returned message)
      | _, _ => (s, Thrown TypeError)
      end
  end.

(** The names [getRoomInfo] prints for the participants of a room. *)
Definition participantNames (s : Demo) (room : Room) : list string :=
  map (fun userId =>
         match users s !! userId with
         | Some user => user_name user
         | None => "Unknown"
         end)
      (participants room).

Definition getRoomInfo (roomId : string) (s : Demo) : Demo * outcome error Room :=
  match rooms s !! roomId with
  | None => (s, Thrown NotFound)   (* "Room not found" *)
  | Some room => (s, Returned room)
  end.

(** The two totals of [getStorageInfo]:
    [Array.from(this.storage.values()).reduce((sum, s) => sum + s.used, 0)]
    and the same over [capacity]. *)
Definition totalUsed (s : Demo) : Z :=
  foldl (fun sum pda => sum + used pda) 0 (map_to_list (storage s)).*2.

Definition totalCapacity (s : Demo) : Z :=
  foldl (fun sum pda => sum + capacity pda) 0 (map_to_list (storage s)).*2.

(** [getStorageInfo] only prints; its result here is the totals line.  (The
    percentage it prints for each PDA is a floating-point rounding and is
    left out.) *)
Definition getStorageInfo (s : Demo) : Demo * outcome error (Z * Z) :=
  (s, Returned (totalUsed s, totalCapacity s)).

(** [generateVoiceData(sizeInBytes)]: [rnd j] is the [j]-th
    [Math.floor(Math.random() * 256)].  [sizeInBytes] is an array length. *)
Definition generateVoiceData (rnd : nat -> Byte.byte) (sizeInBytes : nat) : list Z :=
  map (fun j => Z.of_N (Byte.to_N (rnd j))) (seq 0 sizeInBytes).

(** ** [runDemo]

    [env k] is what the [k]-th method call of the script draws, [rnd k] the
    random bytes of the [k]-th [generateVoiceData]. *)
Definition runDemoBody (env : nat -> Draw) (rnd : nat -> nat -> Byte.byte)
  : Demo -> Demo * outcome error unit :=
  call alice <- createUser (env 0%nat) "Alice";
  call bob <- createUser (env 1%nat) "Bob";
  call charlie <- createUser (env 2%nat) "Charlie";
  call roomId <- createRoom (env 3%nat) alice "Daily Standup";
  call _ <- joinRoom (env 4%nat) bob roomId;
  call _ <- joinRoom (env 5%nat) charlie roomId;
  call _ <- getRoomInfo roomId;
  let greeting := generateVoiceData (rnd 0%nat) (Z.to_nat 5000) in
  call msg1 <- sendVoiceMessage (env 6%nat) alice roomId greeting 0;
  let response := generateVoiceData (rnd 1%nat) (Z.to_nat 8000) in
  call msg2 <- sendVoiceMessage (env 7%nat) bob roomId response 1;
  let question := generateVoiceData (rnd 2%nat) (Z.to_nat 12000) in
  call msg3 <- sendVoiceMessage (env 8%nat) charlie roomId question 2;
  let answer := generateVoiceData (rnd 3%nat) (Z.to_nat 15000) in
  call _ <- broadcastVoiceMessage (fun i => env (9 + i)%nat) alice roomId answer [0; 1; 2];
  call _ <- getVoiceMessage msg1;
  call _ <- getVoiceMessage msg2;
  call _ <- getVoiceMessage msg3;
  call _ <- getStorageInfo;
  call _ <- leaveRoom (env 12%nat) charlie roomId;
  call _ <- leaveRoom (env 13%nat) bob roomId;
  call _ <- leaveRoom (env 14%nat) alice roomId;
  call _ <- getRoomInfo roomId;
  fun s => (s, Returned tt).

(** The body runs in a [try]; the error it throws, if any, is caught and
    printed ("Demo Failed"), and [runDemo] returns either way. *)
Definition runDemo (env : nat -> Draw) (rnd : nat -> nat -> Byte.byte) (s : Demo)
  : Demo * option error :=
  match runDemoBody env rnd s with
  | (s1, Returned _) => (s1, None)
  | (s1, Thrown e) => (s1, Some e)
  end.

(** ** [performanceTest] *)

(** [for (let i = ...; i < 20; i++)], with [n] iterations to go; a throw of
    [sendVoiceMessage] leaves the loop and the method. *)
Fixpoint perfLoop (env : nat -> Draw) (rnd : nat -> nat -> Byte.byte)
    (testUser testRoom : string) (n : nat) (i : nat) (s : Demo)
  : Demo * outcome error unit :=
  match n with
  | O => (s, Returned tt)
  | S n' =>
      let voiceData := generateVoiceData (rnd i) (Z.to_nat 1000) in
      match sendVoiceMessage (env (2 + i)%nat) testUser testRoom voiceData
              (Z.of_nat i mod 3) s with
      | (s1, Returned _) => perfLoop env rnd testUser testRoom n' (S i) s1
      | (s1, Thrown e) => (s1, Thrown e)
      end
  end.

Definition performanceTest (env : nat -> Draw) (rnd : nat -> nat -> Byte.byte)
  : Demo -> Demo * outcome error unit :=
  call testUser <- createUser (env 0%nat) "TestUser";
  call testRoom <- createRoom (env 1%nat) testUser "Performance Test Room";
  perfLoop env rnd testUser testRoom 20 0.

(** [main]: a new demo, [runDemo], then [performanceTest]; what
    [performanceTest] throws rejects [main]. *)
Definition main (env1 : nat -> Draw) (rnd1 : nat -> nat -> Byte.byte)
    (env2 : nat -> Draw) (rnd2 : nat -> nat -> Byte.byte)
  : Demo * outcome error unit :=
  performanceTest env2 rnd2 (runDemo env1 rnd1 newDemo).1.

(** ** State predicates *)

(** Room [r] exists with these participants and this active flag. *)
Definition roomHas (s : Demo) (r : string) (ps : list string) (act : bool) : Prop :=
  exists room, rooms s !! r = Some room /\ participants room = ps /\ isActive room = act.

Definition registered (s : Demo) (u : string) : Prop := is_Some (users s !! u).

(** The capacity of a slot, created on demand. *)
Definition capOf (s : Demo) (i : Z) : Z :=
  capacity (default (newStoragePDA i) (storage s !! i)).

(** Every slot is stored under its index, with the capacity of 30 KiB and a
    usage that is not negative. *)
Definition slots_ok (s : Demo) : Prop :=
  forall i pda, storage s !! i = Some pda ->
    index pda = i /\ capacity pda = 30 * 1024 /\ 0 <= used pda.

(** The sender of every stored message is a user and its room is a room. *)
Definition messages_ok (s : Demo) : Prop :=
  forall id m, messages s !! id = Some m ->
    is_Some (users s !! sender m) /\ is_Some (rooms s !! roomId m).

(** Nothing that is in [s] is missing from [s']: users, rooms, messages and
    slots. *)
Definition extends (s s' : Demo) : Prop :=
  (forall u, is_Some (users s !! u) -> is_Some (users s' !! u))
  /\ (forall r, is_Some (rooms s !! r) -> is_Some (rooms s' !! r))
  /\ (forall id, is_Some (messages s !! id) -> is_Some (messages s' !! id))
  /\ (forall i, is_Some (storage s !! i) -> is_Some (storage s' !! i)).

(** The message a send stores, and the state a send that returns leaves. *)
Definition sentMessage (d : Draw) (u r : string) (data : list Z) (i : Z) (room : Room)
  : Message :=
  {| message_id := messageIdOf d; sender := u; roomId := r; voiceData := data;
     targetPDAIndex := i; sequenceNumber := messageCount room + 1;
     dataLength := Z.of_nat (length data); timestamp := date1 d |}.

Definition sentSlot (d : Draw) (data : list Z) (i : Z) (s : Demo) : StoragePDA :=
  let pda := default (newStoragePDA i) (storage s !! i) in
  {| index := index pda; capacity := capacity pda;
     used := used pda + Z.of_nat (length data);
     pda_messages := pda_messages pda ++ [messageIdOf d] |}.

Definition sentState (d : Draw) (u r : string) (data : list Z) (i : Z)
    (room : Room) (user : User) (s : Demo) : Demo :=
  {| rooms := <[r := room_sent (date2 d) room]> (rooms s);
     messages := <[messageIdOf d := sentMessage d u r data i room]> (messages s);
     storage := <[i := sentSlot d data i s]> (storage s);
     users := <[u := user_sent user]> (users s) |}.

(** How many of the [n] iterations from [i] on target slot [j]. *)
Definition share (n i : nat) (j : Z) : Z :=
  Z.of_nat (length (filter (fun k => Z.of_nat k mod 3 = j) (seq i n))).

(** Where a demo stands: room [r] with its participants and flag, the users
    [us] registered, every stored message readable, and the usage of slots
    0, 1 and 2, each of 30 KiB. *)
Definition demoAt (s : Demo) (r : string) (ps : list string) (act : bool)
    (us : list string) (u0 u1 u2 : Z) : Prop :=
  roomHas s r ps act /\ Forall (registered s) us /\ messages_ok s
  /\ (usedOf s 0 = u0 /\ capOf s 0 = 30 * 1024)
  /\ (usedOf s 1 = u1 /\ capOf s 1 = 30 * 1024)
  /\ (usedOf s 2 = u2 /\ capOf s 2 = 30 * 1024).

(** ** Scenarios *)

(** Calls made after Alice and Bob are in the room, and the state they lead to. *)
Definition laterCalls : list Call :=
  [ SendVoiceMessage (draw "m1" 5) alice standup (bytes 5000) 1;
    BroadcastVoiceMessage (numbered 9) alice standup (bytes 1000) [0; 1; 2];
    LeaveRoom (draw "l" 12) bob standup ].

Definition later : Demo := runAll laterCalls inStandup.

(** ** Draws for the scripts *)

(** The [k]-th call draws the nonce [<k>] at time [k]. *)
Definition counting (prefix : string) (k : nat) : Draw :=
  {| nonce := prefix +:+ pretty k; date1 := Z.of_nat k; date2 := Z.of_nat k |}.

Definition zeros (k j : nat) : Byte.byte := Byte.x00.

End Scripts.

(** * Properties of the reallocation client *)

Module ReallocationFacts.
Import Reallocation.
Local Open Scope Z_scope.

Lemma ceilDiv_bounds a b : 0 < b -> b * (ceilDiv a b - 1) < a <= b * ceilDiv a b.
Proof.
  intros Hb. unfold ceilDiv.
  pose proof (Z.div_mod (- a) b ltac:(lia)) as Hdm.
  pose proof (Z.mod_pos_bound (- a) b Hb) as Hm.
  nia.
Qed.



Section ClientFacts.

Variable Ledger : Type.
Variable reallocatePdaAccount : Z -> Ledger -> Ledger * outcome exn unit.
Variable getAccountInfo : Ledger -> Ledger * outcome exn (option Z).
Variable getReallocationStepsNeeded : Z -> Ledger -> Ledger.

Abbreviation loop := (reallocLoop Ledger reallocatePdaAccount getAccountInfo).
Abbreviation client :=
  (reallocatePDAToTargetSize Ledger reallocatePdaAccount getAccountInfo
     getReallocationStepsNeeded).









End ClientFacts.





End ReallocationFacts.

(** * Properties of the voice-chat simulation *)

Module VoiceChatFacts.
Import VoiceChat.
Local Open Scope Z_scope.

(** ** Arrays *)

Lemma indexOf_Some x l i : indexOf x l = Some i -> l !! i = Some x.
Proof.
  revert i. induction l as [|y l IH]; intros i; simpl; [done|].
  destruct (decide (y = x)) as [->|Hne].
  - by intros [= <-].
  - destruct (indexOf x l) as [j|]; simpl; [|done].
    intros [= <-]. simpl. by apply IH.
Qed.

Lemma indexOf_None x l : indexOf x l = None <-> x ∉ l.
Proof.
  induction l as [|y l IH]; simpl.
  - split; [intros _; apply not_elem_of_nil | done].
  - destruct (decide (y = x)) as [->|Hne].
    + split; [done|]. intros H. exfalso. apply H. left.
    + rewrite not_elem_of_cons. destruct (indexOf x l); simpl.
      * split; [done|]. intros [_ H]. by apply IH in H.
      * split; [|done]. intros _. split; [congruence | by apply IH].
Qed.

Lemma indexOf_elem x l : x ∈ l -> exists i, indexOf x l = Some i.
Proof.
  intros Hin. destruct (indexOf x l) as [i|] eqn:E; [by exists i|].
  by apply indexOf_None in E.
Qed.

(** Removing the position of [x] from a list without repetitions removes [x]. *)
Lemma splice1_NoDup (l : list string) i x :
  NoDup l -> l !! i = Some x ->
  NoDup (splice1 i l) /\ forall y, y ∈ splice1 i l <-> y ∈ l /\ y <> x.
Proof.
  intros Hnd Hi. unfold splice1.
  pose proof (delete_Permutation l i x Hi) as Hp.
  apply (NoDup_Permutation_proper _ _ Hp) in Hnd.
  apply NoDup_cons in Hnd as [Hx Hnd']. split; [done|].
  intros y. rewrite (elem_of_Permutation_proper y _ _ Hp), elem_of_cons. split.
  - intros Hy. split; [by right|]. by intros ->.
  - intros [[->|Hy] Hne]; done.
Qed.

(** ** Call sequences *)

Lemma steps_trans s1 s2 s3 : steps s1 s2 -> steps s2 s3 -> steps s1 s3.
Proof. intros H12 H23. induction H23; [done|]. by apply steps_call. Qed.

Lemma runAll_steps cs : forall s, freshAll cs s -> steps s (runAll cs s).
Proof.
  induction cs as [|c cs IH]; intros s; simpl.
  - intros _. apply steps_refl.
  - intros [Hc Hcs]. eapply steps_trans; [|by apply IH].
    apply steps_call; [apply steps_refl | done].
Qed.

Lemma steps_ok_steps s s' : steps_ok s s' -> steps s s'.
Proof. induction 1; [apply steps_refl | by apply steps_call]. Qed.

Section Invariants.

Variable P : Demo -> Prop.

Hypothesis P_send : forall d u r data i s, P s -> P (sendVoiceMessage d u r data i s).1.

(** What every send keeps, the loop of a broadcast keeps. *)
Lemma broadcastLoop_keeps u r data targets : forall ds ids s,
  P s -> P (broadcastLoop ds u r data targets ids s).1.
Proof.
  induction targets as [|i rest IH]; intros ds ids s Hs; simpl; [done|].
  pose proof (P_send (ds 0%nat) u r data i s Hs) as H1.
  destruct (sendVoiceMessage (ds 0%nat) u r data i s) as [s1 o]. by apply IH.
Qed.

Lemma broadcast_keeps ds u r data targets s :
  P s -> P (broadcastVoiceMessage ds u r data targets s).1.
Proof.
  intros Hs. unfold broadcastVoiceMessage.
  destruct (rooms s !! r); [|done]. destruct (users s !! u); [|done].
  destruct (10 <? _); [done|].
  pose proof (broadcastLoop_keeps u r data targets ds [] s Hs) as H1.
  by destruct (broadcastLoop ds u r data targets [] s).
Qed.

Hypothesis P_createUser : forall d n s,
  users s !! userIdOf d = None -> P s -> P (createUser d n s).1.
Hypothesis P_createRoom : forall d h n s,
  rooms s !! roomIdOf d = None -> P s -> P (createRoom d h n s).1.
Hypothesis P_joinRoom : forall d u r s, P s -> P (joinRoom d u r s).1.
Hypothesis P_leaveRoom : forall d u r s, P s -> P (leaveRoom d u r s).1.

(** A property every method keeps holds along every sequence of calls. *)
Lemma steps_keep s s' : steps s s' -> P s -> P s'.
Proof.
  induction 1 as [|s' c Hsteps IH Hfresh]; [done|].
  intros Hs. specialize (IH Hs).
  destruct c; simpl in *; auto using broadcast_keeps.
Qed.

End Invariants.

(** ** Storage *)

Lemma send_storage_ok d u r data i s :
  storage_ok s -> storage_ok (sendVoiceMessage d u r data i s).1.
Proof.
  intros Hs. unfold sendVoiceMessage.
  destruct (rooms s !! r) as [room|]; [|done].
  destruct (users s !! u) as [user|]; [|done].
  destruct (negb _); [done|]. destruct (29 * 1024 <? _); [done|].
  destruct (storage s !! i) as [pda|] eqn:Hi.
  - destruct (Z.ltb_spec (capacity pda) (used pda + Z.of_nat (length data))); simpl.
    + exact Hs.
    + intros j pda'. simpl. rewrite lookup_insert. case_decide.
      * intros [= <-]. simpl. lia.
      * apply Hs.
  - destruct (Z.ltb_spec (capacity (newStoragePDA i))
                (used (newStoragePDA i) + Z.of_nat (length data))); simpl in *.
    + intros j pda'. simpl. rewrite lookup_insert. case_decide.
      * intros [= <-]. simpl. lia.
      * apply Hs.
    + intros j pda'. simpl. rewrite insert_insert_eq, lookup_insert. case_decide.
      * intros [= <-]. simpl. lia.
      * apply Hs.
Qed.

(** Only a send touches the storage PDAs. *)
Lemma createRoom_storage d h n s : storage (createRoom d h n s).1 = storage s.
Proof. unfold createRoom. simpl. by destruct (users s !! h). Qed.

Lemma joinRoom_storage d u r s : storage (joinRoom d u r s).1 = storage s.
Proof.
  unfold joinRoom. destruct (rooms s !! r) as [room|]; [|done].
  destruct (negb _); [done|]. destruct (includes _ _); [done|].
  destruct (10 <=? _); [done|]. by destruct (users s !! u).
Qed.

Lemma leaveRoom_storage d u r s : storage (leaveRoom d u r s).1 = storage s.
Proof.
  unfold leaveRoom. destruct (rooms s !! r) as [room|]; [|done].
  destruct (users s !! u); [|done]. by destruct (indexOf _ _).
Qed.

Lemma steps_storage_ok s s' : steps s s' -> storage_ok s -> storage_ok s'.
Proof.
  apply (steps_keep storage_ok); auto using send_storage_ok;
    unfold storage_ok; intros.
  - by rewrite createRoom_storage in *; eauto.
  - by rewrite joinRoom_storage in *; eauto.
  - by rewrite leaveRoom_storage in *; eauto.
Qed.

(** C2: along every sequence of calls, whether they return or throw, no
    storage PDA ever holds more bytes than its capacity. *)
Theorem used_never_exceeds_capacity s i pda :
  reachable s -> storage s !! i = Some pda -> used pda <= capacity pda.
Proof.
  intros Hreach. revert i pda. change (storage_ok s).
  apply (steps_storage_ok newDemo s Hreach). intros i pda Hi. by simpl in Hi.
Qed.

(** ** What each method does to the rooms *)

Lemma createRoom_rooms d h n s :
  rooms (createRoom d h n s).1
  = <[roomIdOf d := {| room_id := roomIdOf d; room_name := n; host := h;
                       participants := [h]; isActive := true;
                       createdAt := date1 d; lastActivity := date2 d;
                       messageCount := 0 |}]> (rooms s).
Proof. unfold createRoom. simpl. by destruct (users s !! h). Qed.

Lemma joinRoom_rooms d u r s :
  rooms (joinRoom d u r s).1 = rooms s
  \/ exists room,
       rooms s !! r = Some room /\ isActive room = true
       /\ (u ∉ participants room) /\ (length (participants room) < 10)%nat
       /\ rooms (joinRoom d u r s).1
          = (<[r := room_joined u (date1 d) room]> (rooms s)).
Proof.
  unfold joinRoom. destruct (rooms s !! r) as [room|] eqn:Hr; [|by left].
  destruct (isActive room) eqn:Hact; simpl; [|by left].
  unfold includes. case_bool_decide as Hin; [by left|].
  destruct (Z.leb_spec 10 (Z.of_nat (length (participants room)))); [by left|].
  right. exists room. do 3 (split; [done|]). split; [lia|].
  by destruct (users s !! u).
Qed.

Lemma send_rooms d u r data i s :
  rooms (sendVoiceMessage d u r data i s).1 = rooms s
  \/ exists room,
       rooms s !! r = Some room
       /\ rooms (sendVoiceMessage d u r data i s).1
          = (<[r := room_sent (date2 d) room]> (rooms s)).
Proof.
  unfold sendVoiceMessage. destruct (rooms s !! r) as [room|] eqn:Hr; [|by left].
  destruct (users s !! u) as [user|]; [|by left].
  destruct (negb _); [by left|]. destruct (29 * 1024 <? _); [by left|].
  right. exists room. split; [done|].
  destruct (storage s !! i) as [pda|]; by destruct (_ <? _).
Qed.

Lemma leaveRoom_rooms d u r s :
  rooms (leaveRoom d u r s).1 = rooms s
  \/ exists room k,
       rooms s !! r = Some room /\ indexOf u (participants room) = Some k
       /\ rooms (leaveRoom d u r s).1
          = (<[r := room_left k (date1 d) room]> (rooms s)).
Proof.
  unfold leaveRoom. destruct (rooms s !! r) as [room|] eqn:Hr; [|by left].
  destruct (users s !! u) as [user|]; [|by left].
  destruct (indexOf u (participants room)) as [k|] eqn:Hk; [|by left].
  right. by exists room, k.
Qed.

(** ** Rooms stay within ten participants *)

Lemma steps_rooms_ok s s' : steps s s' -> rooms_ok s -> rooms_ok s'.
Proof.
  apply (steps_keep rooms_ok).
  - intros d u r data i s0 Hs.
    destruct (send_rooms d u r data i s0) as [Heq|(room & Hr & Heq)];
      unfold rooms_ok; rewrite Heq; [done|].
    intros r0 room0. rewrite lookup_insert. case_decide; [|by apply Hs].
    intros [= <-]. simpl. by apply (Hs r).
  - intros d n s0 _ Hs. exact Hs.
  - intros d h n s0 _ Hs. unfold rooms_ok. rewrite createRoom_rooms.
    intros r0 room0. rewrite lookup_insert. case_decide; [|by apply Hs].
    intros [= <-]. simpl. split; [lia|done].
  - intros d u r s0 Hs.
    destruct (joinRoom_rooms d u r s0) as [Heq|(room & Hr & Hact & Hin & Hlen & Heq)];
      unfold rooms_ok; rewrite Heq; [done|].
    intros r0 room0. rewrite lookup_insert. case_decide; [|by apply Hs].
    intros [= <-]. simpl. rewrite length_app. simpl. split; [lia|congruence].
  - intros d u r s0 Hs.
    destruct (leaveRoom_rooms d u r s0) as [Heq|(room & k & Hr & Hk & Heq)];
      unfold rooms_ok; rewrite Heq; [done|].
    intros r0 room0. rewrite lookup_insert. case_decide; [|by apply Hs].
    intros [= <-]. simpl. destruct (Hs r room Hr) as [Hlen Hinact]. unfold splice1.
    split.
    + pose proof (sublist_length _ _ (sublist_delete (participants room) k)). lia.
    + case_decide as Hz; [intros _; by apply length_zero_iff_nil|].
      intros Hf. rewrite (Hinact Hf). by destruct k.
Qed.

Lemma reachable_rooms_ok s : reachable s -> rooms_ok s.
Proof. intros H. apply (steps_rooms_ok newDemo s H). intros r room Hr. by simpl in Hr. Qed.

(** ** A deactivated room stays deactivated *)

Lemma steps_deactivated r s s' : steps s s' -> deactivated r s -> deactivated r s'.
Proof.
  apply (steps_keep (deactivated r)).
  - intros d u r0 data i s0 (room & Hr & Hoff).
    destruct (send_rooms d u r0 data i s0) as [Heq|(room0 & Hr0 & Heq)];
      unfold deactivated; rewrite Heq; [by exists room|].
    destruct (decide (r0 = r)) as [->|Hne].
    + rewrite lookup_insert_eq. eexists; split; [done|]. simpl. congruence.
    + rewrite lookup_insert_ne by done. by exists room.
  - intros d n s0 _ Hs. exact Hs.
  - intros d h n s0 Hfresh (room & Hr & Hoff). unfold deactivated.
    rewrite createRoom_rooms. rewrite lookup_insert_ne by congruence. by exists room.
  - intros d u r0 s0 (room & Hr & Hoff).
    destruct (joinRoom_rooms d u r0 s0) as [Heq|(room0 & Hr0 & Hact & _ & _ & Heq)];
      unfold deactivated; rewrite Heq; [by exists room|].
    rewrite lookup_insert_ne by congruence. by exists room.
  - intros d u r0 s0 (room & Hr & Hoff).
    destruct (leaveRoom_rooms d u r0 s0) as [Heq|(room0 & k & Hr0 & Hk & Heq)];
      unfold deactivated; rewrite Heq; [by exists room|].
    destruct (decide (r0 = r)) as [->|Hne].
    + rewrite lookup_insert_eq. eexists; split; [done|]. simpl.
      case_decide; [done|congruence].
    + rewrite lookup_insert_ne by done. by exists room.
Qed.

(** ** Scenarios are reachable *)

Ltac scenario := apply runAll_steps; vm_compute; repeat split.

Lemma reachable_fullRoom : reachable fullRoom.
Proof. scenario. Qed.

Lemma reachable_opened : reachable opened.
Proof. scenario. Qed.

Lemma reachable_emptied : reachable emptied.
Proof. scenario. Qed.

Lemma reachable_afterBroadcast : reachable afterBroadcast.
Proof. scenario. Qed.

Lemma used_never_exceeds_capacity_witness :
  reachable afterBroadcast
  /\ storage afterBroadcast !! 1
     = Some {| index := 1; capacity := 30720; used := 25000; pda_messages := ["msg_m1"] |}
  /\ 25000 <= 30720.
Proof.
  assert (storage afterBroadcast !! 1
          = Some {| index := 1; capacity := 30720; used := 25000;
                    pda_messages := ["msg_m1"] |}) as Hpda by (vm_compute; reflexivity).
  split; [exact reachable_afterBroadcast|]. split; [exact Hpda|].
  exact (used_never_exceeds_capacity afterBroadcast 1 _ reachable_afterBroadcast Hpda).
Defined.

(** ** Joining *)

Lemma joinRoom_deactivated d u r s :
  deactivated r s -> joinRoom d u r s = (s, Thrown InactiveRoom).
Proof. intros (room & Hr & Hoff). unfold joinRoom. by rewrite Hr, Hoff. Qed.

(** On a room of ten every [joinRoom] throws and changes nothing; the test
    for a caller who is already in the room comes before the test of the
    size. *)
Lemma joinRoom_full s r room d u :
  reachable s -> rooms s !! r = Some room -> length (participants room) = 10%nat ->
  joinRoom d u r s
  = (s, Thrown (if includes u (participants room) then AlreadyMember else RoomFull)).
Proof.
  intros Hreach Hr Hten. destruct (reachable_rooms_ok s Hreach r room Hr) as [_ Hoff].
  unfold joinRoom. rewrite Hr.
  destruct (isActive room) eqn:Hact.
  - simpl. destruct (includes u (participants room)); [done|].
    rewrite Hten. reflexivity.
  - rewrite (Hoff eq_refl) in Hten. discriminate Hten.
Qed.

(** C5: in every reachable state a room has at most 10 participants, and on
    a room that has 10 a [joinRoom] by a user who is not one of them, the
    eleventh, throws [RoomFull] and changes nothing: the room's participants
    and the user's rooms are as they were. *)
Theorem room_never_exceeds_ten s r room :
  reachable s -> rooms s !! r = Some room ->
  (length (participants room) <= 10)%nat
  /\ (length (participants room) = 10%nat ->
      forall d u, u ∉ participants room ->
        joinRoom d u r s = (s, Thrown RoomFull)
        /\ rooms (joinRoom d u r s).1 !! r = Some room
        /\ users (joinRoom d u r s).1 !! u = users s !! u).
Proof.
  intros Hreach Hr. split; [by apply (reachable_rooms_ok s Hreach r room Hr)|].
  intros Hten d u Hout.
  assert (joinRoom d u r s = (s, Thrown RoomFull)) as Hjoin.
  { rewrite (joinRoom_full s r room d u Hreach Hr Hten).
    unfold includes. by rewrite bool_decide_eq_false_2. }
  rewrite Hjoin. by repeat split.
Qed.

Lemma room_never_exceeds_ten_witness :
  rooms fullRoom !! "room_full" = Some fullHouse
  /\ length (participants fullHouse) = 10%nat
  /\ ("user_z" ∉ participants fullHouse)
  /\ joinRoom (draw "z" 9) "user_z" "room_full" fullRoom = (fullRoom, Thrown RoomFull).
Proof.
  assert (rooms fullRoom !! "room_full" = Some fullHouse) as Hr
    by (vm_compute; reflexivity).
  assert ("user_z" ∉ participants fullHouse) as Hout
    by (apply (bool_decide_unpack _); vm_compute; exact I).
  split; [exact Hr|]. split; [reflexivity|]. split; [exact Hout|].
  exact (proj1 (proj2 (room_never_exceeds_ten fullRoom "room_full" fullHouse
                         reachable_fullRoom Hr) eq_refl (draw "z" 9) "user_z" Hout)).
Defined.

(** One of the ten who calls [joinRoom] again on the full room is told
    [AlreadyMember]: that test comes first. *)
Lemma full_room_member_rejoins :
  reachable fullRoom
  /\ rooms fullRoom !! "room_full" = Some fullHouse
  /\ length (participants fullHouse) = 10%nat
  /\ joinRoom (draw "z" 9) "user_0" "room_full" fullRoom = (fullRoom, Thrown AlreadyMember)
  /\ (joinRoom (draw "z" 9) "user_0" "room_full" fullRoom).2 <> Thrown RoomFull.
Proof.
  split; [exact reachable_fullRoom|].
  split; [vm_compute; reflexivity|]. split; [reflexivity|].
  split; [vm_compute; reflexivity|].
  vm_compute. discriminate.
Qed.

(** C9: when [leaveRoom] removes the last participant of a room the call
    returns, the room is left without participants and with [isActive]
    false, and from then on, whatever calls follow, every [joinRoom] on that
    room throws [InactiveRoom] and changes nothing. *)
Theorem last_leave_deactivates_room s d u r room user :
  rooms s !! r = Some room -> users s !! u = Some user -> participants room = [u] ->
  exists s1,
    leaveRoom d u r s = (s1, Returned tt)
    /\ (exists room1, rooms s1 !! r = Some room1
                      /\ participants room1 = [] /\ isActive room1 = false)
    /\ forall s2, steps s1 s2 ->
         forall d' u', joinRoom d' u' r s2 = (s2, Thrown InactiveRoom).
Proof.
  intros Hr Hu Hps. unfold leaveRoom. rewrite Hr, Hu, Hps. simpl.
  rewrite decide_True by done. simpl.
  eexists. split; [reflexivity|].
  assert (deactivated r
            {| rooms := <[r := room_left 0 (date1 d) room]> (rooms s);
               messages := messages s; storage := storage s;
               users := <[u := user_left r user]> (users s) |}) as Hoff.
  { eexists. simpl. rewrite lookup_insert_eq. split; [done|]. simpl. by rewrite Hps. }
  split.
  - eexists. simpl. rewrite lookup_insert_eq. split; [done|]. simpl. by rewrite Hps.
  - intros s2 Hsteps d' u'. apply joinRoom_deactivated.
    by apply (steps_deactivated r _ s2 Hsteps).
Qed.

Lemma last_leave_deactivates_room_witness :
  rooms opened !! standup = Some openedStandup
  /\ users opened !! alice = Some aliceOpened
  /\ participants openedStandup = [alice]
  /\ exists s1,
       leaveRoom (draw "l" 4) alice standup opened = (s1, Returned tt)
       /\ (exists room1, rooms s1 !! standup = Some room1
                         /\ participants room1 = [] /\ isActive room1 = false)
       /\ forall s2, steps s1 s2 ->
            forall d' u', joinRoom d' u' standup s2 = (s2, Thrown InactiveRoom).
Proof.
  assert (rooms opened !! standup = Some openedStandup) as Hr
    by (vm_compute; reflexivity).
  assert (users opened !! alice = Some aliceOpened) as Hu
    by (vm_compute; reflexivity).
  split; [exact Hr|]. split; [exact Hu|]. split; [reflexivity|].
  exact (last_leave_deactivates_room opened (draw "l" 4) alice standup
           openedStandup aliceOpened Hr Hu eq_refl).
Defined.

(** C6 (amended): [sendVoiceMessage] does not look at the active flag.  It
    checks that the room and the user exist ([NotFound]) and that the sender
    is a participant ([NotMember]) before anything else, and a call that
    fails one of these checks changes nothing.  In a reachable state a
    deactivated room has no participants, so a send that names one fails
    with [NotMember], or with [NotFound] when the sender is unknown, never
    with [InactiveRoom]. *)
Theorem send_to_deactivated_room s r room :
  reachable s -> rooms s !! r = Some room -> isActive room = false ->
  (forall d u data i,
     sendVoiceMessage d u r data i s
     = (s, Thrown (match users s !! u with Some _ => NotMember | None => NotFound end)))
  /\ (forall s0 d u r0 data i,
        rooms s0 !! r0 = None \/ users s0 !! u = None ->
        sendVoiceMessage d u r0 data i s0 = (s0, Thrown NotFound))
  /\ (forall s0 d u r0 data i room0 user0,
        rooms s0 !! r0 = Some room0 -> users s0 !! u = Some user0 ->
        u ∉ participants room0 ->
        sendVoiceMessage d u r0 data i s0 = (s0, Thrown NotMember)).
Proof.
  intros Hreach Hr Hoff.
  assert (forall s0 d u r0 data i room0 user0,
        rooms s0 !! r0 = Some room0 -> users s0 !! u = Some user0 ->
        u ∉ participants room0 ->
        sendVoiceMessage d u r0 data i s0 = (s0, Thrown NotMember)) as Hnm.
  { intros s0 d u r0 data i room0 user0 Hr0 Hu0 Hin. unfold sendVoiceMessage.
    rewrite Hr0, Hu0. unfold includes. by rewrite bool_decide_eq_false_2. }
  split; [|split; [|exact Hnm]].
  - intros d u data i. destruct (users s !! u) as [user|] eqn:Hu.
    + apply (Hnm s d u r data i room user Hr Hu).
      destruct (reachable_rooms_ok s Hreach r room Hr) as [_ Hnil].
      rewrite (Hnil Hoff). apply not_elem_of_nil.
    + unfold sendVoiceMessage. by rewrite Hr, Hu.
  - intros s0 d u r0 data i [Hnone|Hnone]; unfold sendVoiceMessage; rewrite Hnone;
      [done | by destruct (rooms s0 !! r0)].
Qed.

Lemma send_to_deactivated_room_witness :
  rooms emptied !! standup = Some emptiedStandup
  /\ isActive emptiedStandup = false
  /\ sendVoiceMessage (draw "m" 9) alice standup (bytes 10) 0 emptied
     = (emptied, Thrown NotMember).
Proof.
  assert (rooms emptied !! standup = Some emptiedStandup) as Hr
    by (vm_compute; reflexivity).
  split; [exact Hr|]. split; [reflexivity|].
  exact (proj1 (send_to_deactivated_room emptied standup emptiedStandup
                  reachable_emptied Hr eq_refl)
           (draw "m" 9) alice (bytes 10) 0).
Defined.

(** Alice sends to the room she has just emptied: the room exists and is
    not active, and the send throws [NotMember]. *)
Lemma send_to_emptied_room :
  reachable emptied
  /\ rooms emptied !! standup = Some emptiedStandup
  /\ isActive emptiedStandup = false
  /\ (sendVoiceMessage (draw "m" 9) alice standup (bytes 10) 0 emptied).2
     = Thrown NotMember
  /\ (sendVoiceMessage (draw "m" 9) alice standup (bytes 10) 0 emptied).2
     <> Thrown InactiveRoom.
Proof.
  split; [exact reachable_emptied|].
  split; [vm_compute; reflexivity|]. split; [reflexivity|].
  split; [vm_compute; reflexivity|].
  vm_compute. discriminate.
Qed.

(** ** Sending *)

(** A send by a participant with a payload of at most 29 KiB: the room and
    the user are updated and the other slots are untouched, whether the
    payload fits in the target slot or not. *)
Lemma send_member s d u r data i room user :
  rooms s !! r = Some room -> users s !! u = Some user ->
  u ∈ participants room -> Z.of_nat (length data) <= 29 * 1024 ->
  let res := sendVoiceMessage d u r data i s in
  rooms res.1 !! r = Some (room_sent (date2 d) room)
  /\ users res.1 !! u = Some (user_sent user)
  /\ (forall j, j <> i -> storage res.1 !! j = storage s !! j)
  /\ ((fits s i (Z.of_nat (length data))
       /\ res.2 = Returned (messageIdOf d)
       /\ usedOf res.1 i = usedOf s i + Z.of_nat (length data))
      \/ (~ fits s i (Z.of_nat (length data))
          /\ res.2 = Thrown (SlotFull i)
          /\ storage res.1 !! i = storage s !! i)).
Proof.
  intros Hr Hu Hin Hlen. unfold sendVoiceMessage, fits, usedOf.
  rewrite Hr, Hu. unfold includes. rewrite bool_decide_eq_true_2 by done. simpl.
  destruct (Z.ltb_spec (29 * 1024) (Z.of_nat (length data))) as [?|_]; [lia|].
  destruct (storage s !! i) as [pda|] eqn:Hi; simpl.
  - destruct (Z.ltb_spec (capacity pda) (used pda + Z.of_nat (length data))); simpl;
      rewrite ?lookup_insert_eq; (do 2 (split; [done|])).
    + split; [done|]. right. split; [lia|]. by split.
    + split; [by intros j Hj; rewrite lookup_insert_ne|]. left. split; [lia|]. by split.
  - destruct (Z.ltb_spec (30 * 1024) (0 + Z.of_nat (length data))) as [?|_]; [lia|]. simpl.
    rewrite ?lookup_insert_eq. do 2 (split; [done|]).
    split; [by intros j Hj; rewrite !lookup_insert_ne|]. left. split; [lia|]. by split.
Qed.

(** ** Broadcast *)

Lemma broadcastLoop_sendEach u r data targets : forall ds ids s,
  broadcastLoop ds u r data targets ids s
  = ((sendEach ds u r data targets s).1,
     ids ++ returnedIds (sendEach ds u r data targets s).2).
Proof.
  induction targets as [|i rest IH]; intros ds ids s; simpl.
  - by rewrite app_nil_r.
  - destruct (sendVoiceMessage (ds 0%nat) u r data i s) as [s1 o].
    rewrite IH.
    destruct (sendEach (fun k => ds (S k)) u r data rest s1) as [s2 os]. simpl.
    destruct o; simpl; [by rewrite <- app_assoc | done].
Qed.

Lemma sendEach_length u r data targets : forall ds s,
  length (sendEach ds u r data targets s).2 = length targets.
Proof.
  induction targets as [|i rest IH]; intros ds s; simpl; [done|].
  destruct (sendVoiceMessage (ds 0%nat) u r data i s) as [s1 o].
  specialize (IH (fun k => ds (S k)) s1).
  destruct (sendEach (fun k => ds (S k)) u r data rest s1) as [s2 os]. simpl in *.
  by rewrite IH.
Qed.

Lemma returnedIds_length os : (length (returnedIds os) <= length os)%nat.
Proof. induction os as [|[id|e] os IH]; simpl; lia. Qed.

(** C4 (amended): a broadcast to at most 10 targets, for a room and a user
    that exist, returns the identifiers of the messages created for the
    targets whose send returned, in the order of the target list; a target
    whose send threw has no entry in the result, which is therefore no longer
    than the target list and may be shorter.  Broadcasting to [0; 1; 2] while
    the payload fits slots 0 and 2 and not slot 1 returns two identifiers,
    those of the first and the third send; the usage of slots 0 and 2 grows
    by the payload length and slot 1 is unchanged. *)
Theorem broadcast_returns_successes s ds u r data room user :
  rooms s !! r = Some room -> users s !! u = Some user ->
  (forall targets, (length targets <= 10)%nat ->
     let each := sendEach ds u r data targets s in
     broadcastVoiceMessage ds u r data targets s = (each.1, Returned (returnedIds each.2))
     /\ length each.2 = length targets
     /\ (length (returnedIds each.2) <= length targets)%nat)
  /\ (u ∈ participants room -> Z.of_nat (length data) <= 29 * 1024 ->
      fits s 0 (Z.of_nat (length data)) ->
      ~ fits s 1 (Z.of_nat (length data)) ->
      fits s 2 (Z.of_nat (length data)) ->
      let res := broadcastVoiceMessage ds u r data [0; 1; 2] s in
      res.2 = Returned [messageIdOf (ds 0%nat); messageIdOf (ds 2%nat)]
      /\ usedOf res.1 0 = usedOf s 0 + Z.of_nat (length data)
      /\ storage res.1 !! 1 = storage s !! 1
      /\ usedOf res.1 2 = usedOf s 2 + Z.of_nat (length data)).
Proof.
  intros Hr Hu. split.
  - intros targets Hlen each. unfold broadcastVoiceMessage. rewrite Hr, Hu.
    destruct (Z.ltb_spec 10 (Z.of_nat (length targets))) as [?|_]; [lia|].
    rewrite broadcastLoop_sendEach. simpl. fold each.
    split; [done|]. split; [apply sendEach_length|].
    rewrite <- (sendEach_length u r data targets ds s). apply returnedIds_length.
  - intros Hin Hlen Hfit0 Hfull1 Hfit2. unfold broadcastVoiceMessage. rewrite Hr, Hu.
    simpl.
    pose proof (send_member s (ds 0%nat) u r data 0 room user Hr Hu Hin Hlen)
      as (Hr1 & Hu1 & Hoth1 & [(_ & Hres1 & Hused1)|(Hno & _)]); [|done].
    destruct (sendVoiceMessage (ds 0%nat) u r data 0 s) as [s1 o1]. simpl in *. subst o1.
    assert (~ fits s1 1 (Z.of_nat (length data))) as Hfull1'.
    { unfold fits. by rewrite Hoth1. }
    pose proof (send_member s1 (ds 1%nat) u r data 1 _ _ Hr1 Hu1 Hin Hlen)
      as (Hr2 & Hu2 & Hoth2 & [(Hyes & _)|(_ & Hres2 & Hsame2)]); [done|].
    destruct (sendVoiceMessage (ds 1%nat) u r data 1 s1) as [s2 o2]. simpl in *. subst o2.
    assert (fits s2 2 (Z.of_nat (length data))) as Hfit2'.
    { unfold fits. by rewrite Hoth2, Hoth1. }
    pose proof (send_member s2 (ds 2%nat) u r data 2 _ _ Hr2 Hu2 Hin Hlen)
      as (Hr3 & Hu3 & Hoth3 & [(_ & Hres3 & Hused3)|(Hno & _)]); [|done].
    destruct (sendVoiceMessage (ds 2%nat) u r data 2 s2) as [s3 o3]. simpl in *. subst o3.
    split; [done|]. unfold usedOf in *.
    split; [by rewrite Hoth3, Hoth2|].
    split; [by rewrite Hoth3, Hsame2, Hoth1|].
    by rewrite Hused3, Hoth2, Hoth1.
Qed.

Lemma broadcast_returns_successes_witness :
  rooms slotOneBusy !! standup = Some busyStandup
  /\ users slotOneBusy !! alice = Some busyAlice
  /\ (length [0; 1; 2] <= 10)%nat
  /\ alice ∈ participants busyStandup
  /\ Z.of_nat (length (bytes 10000)) <= 29 * 1024
  /\ fits slotOneBusy 0 (Z.of_nat (length (bytes 10000)))
  /\ ~ fits slotOneBusy 1 (Z.of_nat (length (bytes 10000)))
  /\ fits slotOneBusy 2 (Z.of_nat (length (bytes 10000)))
  /\ length (sendEach (numbered 9) alice standup (bytes 10000) [0; 1; 2] slotOneBusy).2
     = length [0; 1; 2]
  /\ (broadcastVoiceMessage (numbered 9) alice standup (bytes 10000) [0; 1; 2] slotOneBusy).2
     = Returned [messageIdOf (numbered 9 0%nat); messageIdOf (numbered 9 2%nat)].
Proof.
  assert (rooms slotOneBusy !! standup = Some busyStandup) as Hr
    by (vm_compute; reflexivity).
  assert (users slotOneBusy !! alice = Some busyAlice) as Hu
    by (vm_compute; reflexivity).
  assert ((length [0; 1; 2] <= 10)%nat) as Hten by (simpl; lia).
  assert (alice ∈ participants busyStandup) as Hin by (simpl; left).
  assert (Z.of_nat (length (bytes 10000)) <= 29 * 1024) as Hlen
    by (apply Z.leb_le; vm_compute; reflexivity).
  assert (fits slotOneBusy 0 (Z.of_nat (length (bytes 10000)))) as H0
    by (unfold fits; apply Z.leb_le; vm_compute; reflexivity).
  assert (~ fits slotOneBusy 1 (Z.of_nat (length (bytes 10000)))) as H1
    by (unfold fits; apply Z.lt_nge, Z.ltb_lt; vm_compute; reflexivity).
  assert (fits slotOneBusy 2 (Z.of_nat (length (bytes 10000)))) as H2
    by (unfold fits; apply Z.leb_le; vm_compute; reflexivity).
  do 8 (split; [assumption|]).
  pose proof (broadcast_returns_successes slotOneBusy (numbered 9) alice standup
                (bytes 10000) busyStandup busyAlice Hr Hu) as [Hall Hthree].
  split.
  - exact (proj1 (proj2 (Hall [0; 1; 2] Hten))).
  - exact (proj1 (Hthree Hin Hlen H0 H1 H2)).
Defined.

(** With slot 1 too full for the payload, the broadcast to [0; 1; 2] returns
    two entries for three targets: the failure on slot 1 is not in the
    result. *)
Lemma broadcast_drops_failed_target :
  (sendEach (numbered 9) alice standup (bytes 10000) [0; 1; 2] slotOneBusy).2
  = [Returned "msg_0"; Thrown (SlotFull 1); Returned "msg_2"]
  /\ (broadcastVoiceMessage (numbered 9) alice standup (bytes 10000) [0; 1; 2] slotOneBusy).2
     = Returned ["msg_0"; "msg_2"]
  /\ ~ (exists ids,
          (broadcastVoiceMessage (numbered 9) alice standup (bytes 10000) [0; 1; 2]
             slotOneBusy).2 = Returned ids
          /\ length ids = length [0; 1; 2]).
Proof.
  assert ((broadcastVoiceMessage (numbered 9) alice standup (bytes 10000) [0; 1; 2]
             slotOneBusy).2 = Returned ["msg_0"; "msg_2"]) as Hres
    by (vm_compute; reflexivity).
  split; [vm_compute; reflexivity|]. split; [exact Hres|].
  intros (ids & Hids & Hlen). rewrite Hres in Hids. injection Hids as <-.
  discriminate Hlen.
Qed.

(** ** A send the slot has no room for *)

(** C1: slot 0 holds 25000 bytes and Alice, a participant, sends 10000 more
    to it.  The call throws [SlotFull], and the state is not as before: the
    message is in the message store with sequence number 2, and the room's
    message count, the room's last activity and Alice's sent count have moved.
    Only the slot is unchanged. *)
Theorem slot_full_send_leaves_partial_state :
  let before := slotZeroBusy in
  let res := sendVoiceMessage (draw "m2" 6) alice standup (bytes 10000) 0 before in
  res.2 = Thrown (SlotFull 0)
  /\ storage res.1 !! 0 = storage before !! 0
  /\ usedOf before 0 = 25000
  /\ (messageCount <$> rooms before !! standup) = Some 1
  /\ (messageCount <$> rooms res.1 !! standup) = Some 2
  /\ (lastActivity <$> rooms before !! standup) = Some 5
  /\ (lastActivity <$> rooms res.1 !! standup) = Some 6
  /\ (messagesSent <$> users before !! alice) = Some 1
  /\ (messagesSent <$> users res.1 !! alice) = Some 2
  /\ messages before !! "msg_m2" = None
  /\ (sequenceNumber <$> messages res.1 !! "msg_m2") = Some 2
  /\ res.1 <> before.
Proof.
  intros before res.
  assert (messages before !! "msg_m2" = None) as Hb by (vm_compute; reflexivity).
  assert ((sequenceNumber <$> messages res.1 !! "msg_m2") = Some 2) as Ha
    by (vm_compute; reflexivity).
  do 10 (split; [vm_compute; reflexivity|]). split; [exact Ha|].
  intros Heq. rewrite Heq, Hb in Ha. discriminate Ha.
Qed.

(** C3: three sends to one room.  The first returns and carries sequence
    number 1; the second throws [SlotFull]; the third returns and carries
    sequence number 3.  The messages this room's sends returned are numbered
    1 and 3: the send that failed used up number 2. *)
Theorem failed_send_consumes_sequence_number :
  let r1 := sendVoiceMessage (draw "m1" 5) alice standup (bytes 25000) 0 inStandup in
  let r2 := sendVoiceMessage (draw "m2" 6) alice standup (bytes 10000) 0 r1.1 in
  let r3 := sendVoiceMessage (draw "m3" 7) bob standup (bytes 10000) 1 r2.1 in
  r1.2 = Returned "msg_m1"
  /\ r2.2 = Thrown (SlotFull 0)
  /\ r3.2 = Returned "msg_m3"
  /\ (sequenceNumber <$> messages r3.1 !! "msg_m1") = Some 1
  /\ (sequenceNumber <$> messages r3.1 !! "msg_m3") = Some 3
  /\ (roomId <$> messages r3.1 !! "msg_m1") = Some standup
  /\ (roomId <$> messages r3.1 !! "msg_m3") = Some standup.
Proof. intros r1 r2 r3. repeat split; vm_compute; reflexivity. Qed.

(** ** Membership *)

Lemma send_users d u r data i s :
  users (sendVoiceMessage d u r data i s).1 = users s
  \/ exists user,
       users s !! u = Some user
       /\ users (sendVoiceMessage d u r data i s).1
          = (<[u := user_sent user]> (users s)).
Proof.
  unfold sendVoiceMessage. destruct (rooms s !! r) as [room|] eqn:Hr; [|by left].
  destruct (users s !! u) as [user|]; [|by left].
  destruct (negb _); [by left|]. destruct (29 * 1024 <? _); [by left|].
  right. exists user. split; [done|].
  destruct (storage s !! i) as [pda|]; by destruct (_ <? _).
Qed.

(** Two maps with the same image under [f] have entries at the same keys,
    with the same image. *)
Lemma same_view {A B} (f : A -> B) (m m' : gmap string A) k x :
  f <$> m' = f <$> m -> m' !! k = Some x ->
  exists y, m !! k = Some y /\ f y = f x.
Proof.
  intros Heq Hk. assert ((f <$> m) !! k = Some (f x)) as H.
  { rewrite <- Heq, lookup_fmap, Hk. done. }
  rewrite lookup_fmap in H. destruct (m !! k) as [y|]; [|done].
  exists y. split; [done|]. by injection H.
Qed.

(** Consistency only reads the two membership lists. *)
Lemma consistent_view s s' :
  participants <$> rooms s' = participants <$> rooms s ->
  joinedRooms <$> users s' = joinedRooms <$> users s ->
  consistent s -> consistent s'.
Proof.
  intros Hrooms Husers [Hps Hjs]. split.
  - intros r room' Hr'.
    destruct (same_view participants _ _ r room' Hrooms Hr') as (room & Hr & Heq).
    rewrite <- Heq. destruct (Hps r room Hr) as [Hnd Hmem]. split; [done|].
    intros u Hu. destruct (Hmem u Hu) as (user & Hus & Hin).
    destruct (same_view joinedRooms _ _ u user (eq_sym Husers) Hus) as (user' & Hus' & Heq').
    exists user'. split; [done|]. by rewrite Heq'.
  - intros u user' Hu'.
    destruct (same_view joinedRooms _ _ u user' Husers Hu') as (user & Hu & Heq).
    rewrite <- Heq. destruct (Hjs u user Hu) as [Hnd Hmem]. split; [done|].
    intros r Hr. destruct (Hmem r Hr) as (room & Hro & Hin).
    destruct (same_view participants _ _ r room (eq_sym Hrooms) Hro) as (room' & Hro' & Heq').
    exists room'. split; [done|]. by rewrite Heq'.
Qed.

Lemma send_consistent d u r data i s :
  consistent s -> consistent (sendVoiceMessage d u r data i s).1.
Proof.
  apply consistent_view.
  - destruct (send_rooms d u r data i s) as [->|(room & Hr & ->)]; [done|].
    rewrite fmap_insert. apply insert_id. by rewrite lookup_fmap, Hr.
  - destruct (send_users d u r data i s) as [->|(user & Hu & ->)]; [done|].
    rewrite fmap_insert. apply insert_id. by rewrite lookup_fmap, Hu.
Qed.

Lemma createUser_consistent d n s :
  users s !! userIdOf d = None -> consistent s -> consistent (createUser d n s).1.
Proof.
  intros Hfresh [Hps Hjs]. split; simpl.
  - intros r room Hr. destruct (Hps r room Hr) as [Hnd Hmem]. split; [done|].
    intros u Hu. destruct (Hmem u Hu) as (user & Hus & Hin). exists user.
    rewrite lookup_insert_ne by congruence. done.
  - intros u user. rewrite lookup_insert. case_decide.
    + intros [= <-]. simpl. split; [constructor|]. intros r Hr. by apply elem_of_nil in Hr.
    + apply Hjs.
Qed.

Lemma createRoom_consistent d h n s :
  rooms s !! roomIdOf d = None -> returned (createRoom d h n s).2 = true ->
  consistent s -> consistent (createRoom d h n s).1.
Proof.
  intros Hfresh. unfold createRoom. simpl.
  destruct (users s !! h) as [host0|] eqn:Hh; [|done]. intros _ [Hps Hjs].
  split; simpl.
  - intros r room. rewrite lookup_insert. case_decide as Hid.
    + intros [= <-]. simpl. split; [apply NoDup_singleton|].
      intros u ->%list_elem_of_singleton. exists (user_joined (roomIdOf d) host0).
      rewrite lookup_insert_eq. split; [done|]. simpl. subst r.
      apply elem_of_app. right. by apply list_elem_of_singleton.
    + intros Hr. destruct (Hps r room Hr) as [Hnd Hmem]. split; [done|].
      intros u Hu. destruct (Hmem u Hu) as (user & Hus & Hin).
      rewrite lookup_insert. case_decide as Hu'.
      * subst u. exists (user_joined (roomIdOf d) host0). split; [done|]. simpl.
        apply elem_of_app. left. congruence.
      * by exists user.
  - intros u user. rewrite lookup_insert. case_decide as Hu'.
    + intros [= <-]. subst u. simpl. destruct (Hjs h host0 Hh) as [Hnd Hmem]. split.
      * apply NoDup_app. split; [done|]. split; [|apply NoDup_singleton].
        intros x Hx ->%list_elem_of_singleton.
        destruct (Hmem _ Hx) as (room0 & Hr0 & _). congruence.
      * intros r [Hr| ->%list_elem_of_singleton]%elem_of_app.
        -- destruct (Hmem r Hr) as (room0 & Hr0 & Hin). exists room0.
           rewrite lookup_insert_ne by congruence. done.
        -- eexists. rewrite lookup_insert_eq. split; [done|]. simpl.
           by apply list_elem_of_singleton.
    + intros Hu. destruct (Hjs u user Hu) as [Hnd Hmem]. split; [done|].
      intros r Hr. destruct (Hmem r Hr) as (room0 & Hr0 & Hin). exists room0.
      rewrite lookup_insert_ne by congruence. done.
Qed.

Lemma joinRoom_consistent d u r s :
  returned (joinRoom d u r s).2 = true ->
  consistent s -> consistent (joinRoom d u r s).1.
Proof.
  unfold joinRoom. destruct (rooms s !! r) as [room|] eqn:Hr; [|done].
  destruct (isActive room); [|done]. simpl.
  unfold includes. case_bool_decide as Hnew; [done|].
  destruct (10 <=? _); [done|].
  destruct (users s !! u) as [user|] eqn:Hu; [|done]. intros _ [Hps Hjs].
  destruct (Hps r room Hr) as [Hnd Hmem]. destruct (Hjs u user Hu) as [Hnd' Hmem'].
  split; simpl.
  - intros r0 room0. rewrite lookup_insert. case_decide as Hid.
    + intros [= <-]. subst r0. simpl. split.
      * apply NoDup_app. split; [done|]. split; [|apply NoDup_singleton].
        by intros x Hx ->%list_elem_of_singleton.
      * intros u0 [Hu0| ->%list_elem_of_singleton]%elem_of_app.
        -- destruct (Hmem u0 Hu0) as (user0 & Hus & Hin).
           rewrite lookup_insert. case_decide; [|by exists user0]. subst u0.
           eexists. split; [done|]. simpl. apply elem_of_app. left. congruence.
        -- eexists. rewrite lookup_insert_eq. split; [done|]. simpl.
           apply elem_of_app. right. by apply list_elem_of_singleton.
    + intros Hr0. destruct (Hps r0 room0 Hr0) as [Hnd0 Hmem0]. split; [done|].
      intros u0 Hu0. destruct (Hmem0 u0 Hu0) as (user0 & Hus & Hin).
      rewrite lookup_insert. case_decide; [|by exists user0]. subst u0.
      eexists. split; [done|]. simpl. apply elem_of_app. left. congruence.
  - intros u0 user0. rewrite lookup_insert. case_decide as Hid.
    + intros [= <-]. subst u0. simpl. split.
      * apply NoDup_app. split; [done|]. split; [|apply NoDup_singleton].
        intros x Hx ->%list_elem_of_singleton.
        destruct (Hmem' r Hx) as (room0 & Hr0 & Hin). apply Hnew. congruence.
      * intros r0 [Hr0| ->%list_elem_of_singleton]%elem_of_app.
        -- destruct (Hmem' r0 Hr0) as (room0 & Hro & Hin).
           rewrite lookup_insert. case_decide; [|by exists room0]. subst r0.
           eexists. split; [done|]. simpl. apply elem_of_app. left. congruence.
        -- eexists. rewrite lookup_insert_eq. split; [done|]. simpl.
           apply elem_of_app. right. by apply list_elem_of_singleton.
    + intros Hu0. destruct (Hjs u0 user0 Hu0) as [Hnd0 Hmem0]. split; [done|].
      intros r0 Hr0. destruct (Hmem0 r0 Hr0) as (room0 & Hro & Hin).
      rewrite lookup_insert. case_decide; [|by exists room0]. subst r0.
      eexists. split; [done|]. simpl. apply elem_of_app. left. congruence.
Qed.

Lemma leaveRoom_consistent d u r s :
  returned (leaveRoom d u r s).2 = true ->
  consistent s -> consistent (leaveRoom d u r s).1.
Proof.
  unfold leaveRoom. destruct (rooms s !! r) as [room|] eqn:Hr; [|done].
  destruct (users s !! u) as [user|] eqn:Hu; [|done].
  destruct (indexOf u (participants room)) as [k|] eqn:Hk; [|done].
  intros _ [Hps Hjs].
  destruct (Hps r room Hr) as [Hnd Hmem]. destruct (Hjs u user Hu) as [Hnd' Hmem'].
  apply indexOf_Some in Hk.
  destruct (splice1_NoDup _ _ _ Hnd Hk) as [Hndk Hink].
  assert (r ∈ joinedRooms user) as Hjoined.
  { destruct (Hmem u) as (user0 & Hus & Hin); [by eapply list_elem_of_lookup_2|].
    congruence. }
  destruct (indexOf_elem _ _ Hjoined) as [j Hj].
  pose proof (indexOf_Some _ _ _ Hj) as Hj'.
  destruct (splice1_NoDup _ _ _ Hnd' Hj') as [Hndj Hinj].
  split; simpl.
  - intros r0 room0. rewrite lookup_insert. case_decide as Hid.
    + intros [= <-]. subst r0. simpl. split; [done|].
      intros u0 [Hu0 Hne]%Hink. destruct (Hmem u0 Hu0) as (user0 & Hus & Hin).
      exists user0. by rewrite lookup_insert_ne.
    + intros Hr0. destruct (Hps r0 room0 Hr0) as [Hnd0 Hmem0]. split; [done|].
      intros u0 Hu0. destruct (Hmem0 u0 Hu0) as (user0 & Hus & Hin).
      rewrite lookup_insert. case_decide; [|by exists user0]. subst u0.
      eexists. split; [done|]. simpl. rewrite Hj. apply Hinj.
      split; [congruence|done].
  - intros u0 user0. rewrite lookup_insert. case_decide as Hid.
    + intros [= <-]. subst u0. simpl. rewrite Hj. split; [done|].
      intros r0 [Hr0 Hne]%Hinj. destruct (Hmem' r0 Hr0) as (room0 & Hro & Hin).
      exists room0. by rewrite lookup_insert_ne.
    + intros Hu0. destruct (Hjs u0 user0 Hu0) as [Hnd0 Hmem0]. split; [done|].
      intros r0 Hr0. destruct (Hmem0 r0 Hr0) as (room0 & Hro & Hin).
      rewrite lookup_insert. case_decide; [|by exists room0]. subst r0.
      eexists. split; [done|]. simpl. apply Hink.
      split; [congruence|done].
Qed.

Lemma steps_ok_consistent s s' : steps_ok s s' -> consistent s -> consistent s'.
Proof.
  induction 1 as [|s' c Hsteps IH Hfresh Hret]; [done|].
  intros Hs. specialize (IH Hs). destruct c; simpl in *.
  - by apply createUser_consistent.
  - by apply createRoom_consistent.
  - by apply joinRoom_consistent.
  - by apply send_consistent.
  - apply (broadcast_keeps consistent); [apply send_consistent | done].
  - by apply leaveRoom_consistent.
Qed.

Lemma steps_ok_trans s1 s2 s3 : steps_ok s1 s2 -> steps_ok s2 s3 -> steps_ok s1 s3.
Proof. intros H12 H23. induction H23; [done|]. by apply steps_ok_call. Qed.

Lemma runAll_steps_ok cs : forall s, returnAll cs s -> steps_ok s (runAll cs s).
Proof.
  induction cs as [|c cs IH]; intros s; simpl.
  - intros _. apply steps_ok_refl.
  - intros (Hc & Hret & Hcs). eapply steps_ok_trans; [|by apply IH].
    apply steps_ok_call; [apply steps_ok_refl | done | done].
Qed.

(** C10: in every state reached from the empty demo through calls that
    return ([createUser], [createRoom], [joinRoom], [leaveRoom],
    [sendVoiceMessage], and [broadcastVoiceMessage] as well), a user is in a
    room's participants exactly when the room is in that user's joined
    rooms. *)
Theorem membership_is_bidirectional s u r :
  steps_ok newDemo s ->
  (exists room, rooms s !! r = Some room /\ u ∈ participants room)
  <-> (exists user, users s !! u = Some user /\ r ∈ joinedRooms user).
Proof.
  intros Hsteps.
  assert (consistent newDemo) as Hinit by (split; intros k x Hk; by simpl in Hk).
  destruct (steps_ok_consistent newDemo s Hsteps Hinit) as [Hps Hjs]. split.
  - intros (room & Hr & Hin). by apply (Hps r room Hr).
  - intros (user & Hu & Hin). by apply (Hjs u user Hu).
Qed.

Lemma membership_is_bidirectional_witness :
  steps_ok newDemo inStandup
  /\ ((exists room, rooms inStandup !! standup = Some room /\ bob ∈ participants room)
      <-> (exists user, users inStandup !! bob = Some user /\ standup ∈ joinedRooms user)).
Proof.
  assert (steps_ok newDemo inStandup) as Hsteps
    by (apply runAll_steps_ok; vm_compute; repeat split).
  split; [exact Hsteps|].
  exact (membership_is_bidirectional inStandup bob standup Hsteps).
Defined.

End VoiceChatFacts.

(** * More on the reallocation client *)

Module ReallocationMore.
Import Reallocation ReallocationFacts.
Local Open Scope Z_scope.

(** The step budget is the least number of 10 KiB steps that take a unit of
    10 KiB to the target: with [maxIterations] steps it gets there, with one
    step less it does not. *)
Theorem maxIterations_least targetSize :
  targetSize <= 10240 + 10240 * maxIterations targetSize
  /\ 10240 + 10240 * (maxIterations targetSize - 1) < targetSize
  /\ (forall m, targetSize <= 10240 + 10240 * m -> maxIterations targetSize <= m).
Proof.
  unfold maxIterations.
  pose proof (ceilDiv_bounds (targetSize - 10240) 10240 ltac:(lia)) as [Hlo Hhi].
  split; [lia|]. split; [lia|]. intros m Hm. nia.
Qed.

Section Contract.

Variable Ledger : Type.
Variable reallocatePdaAccount : Z -> Ledger -> Ledger * outcome exn unit.
Variable getAccountInfo : Ledger -> Ledger * outcome exn (option Z).
Variable getReallocationStepsNeeded : Z -> Ledger -> Ledger.

Abbreviation loop := (reallocLoop Ledger reallocatePdaAccount getAccountInfo).
Abbreviation client :=
  (reallocatePDAToTargetSize Ledger reallocatePdaAccount getAccountInfo
     getReallocationStepsNeeded).

(** For a target of at most 10 KiB the loop body never runs: the method
    makes no reallocation call, whatever the account holds, and needs no
    fuel; it reads the final size and is done. *)
Theorem small_target_makes_no_call fuel targetSize w :
  targetSize <= 10240 ->
  (forall otherRealloc,
     client fuel targetSize w
     = reallocatePDAToTargetSize Ledger otherRealloc getAccountInfo
         getReallocationStepsNeeded fuel targetSize w)
  /\ iterations (client fuel targetSize w).1.2 = 0%nat
  /\ (client fuel targetSize w).2 <> Unfinished.
Proof.
  intros Hsmall.
  assert (maxIterations targetSize <= 0) as Hmax.
  { unfold maxIterations.
    pose proof (ceilDiv_bounds (targetSize - 10240) 10240 ltac:(lia)). nia. }
  assert (forall re w0 log,
            reallocLoop Ledger re getAccountInfo fuel targetSize
              (maxIterations targetSize) 0 w0 log = (w0, log, Exited)) as Hloop.
  { intros re w0 log. destruct fuel; simpl;
      destruct (Z.ltb_spec 0 (maxIterations targetSize)); (lia || done). }
  split; [|split].
  - intros other. unfold reallocatePDAToTargetSize. by rewrite !Hloop.
  - unfold reallocatePDAToTargetSize. rewrite Hloop.
    destruct (getAccountInfo _) as [w2 [[n|]|e]]; reflexivity.
  - unfold reallocatePDAToTargetSize. rewrite Hloop.
    destruct (getAccountInfo _) as [w2 [[n|]|e]]; simpl; congruence.
Qed.

(** What the client relies on: the size of the account can be read and
    reading does not change it; a reallocation that succeeds grows the
    account by 10 KiB or up to the target; the only refusal is
    [NoReallocNeeded], given when the account is at or above the target. *)
Variable size : Ledger -> Z.

Hypothesis info_reads : forall w,
  exists w', getAccountInfo w = (w', Returned (Some (size w))) /\ size w' = size w.
Hypothesis steps_keep_size : forall t w,
  size (getReallocationStepsNeeded t w) = size w.
Hypothesis realloc_grows : forall t w w' u,
  reallocatePdaAccount t w = (w', Returned u) -> Z.min t (size w + 10240) <= size w'.
Hypothesis realloc_refuses : forall t w w' e,
  reallocatePdaAccount t w = (w', Thrown e) ->
  isNoReallocNeeded e = true /\ t <= size w'.

Lemma loop_reaches_target fuel : forall targetSize maxIter cur w log,
  targetSize <= size w + 10240 * (maxIter - cur) ->
  (Z.to_nat (maxIter - cur) <= fuel)%nat ->
  exists w' log',
    loop fuel targetSize maxIter cur w log = (w', log', Exited)
    /\ targetSize <= size w'.
Proof.
  induction fuel as [|fuel IH]; intros targetSize maxIter cur w log Hbudget Hfuel; simpl.
  - destruct (Z.ltb_spec cur maxIter); [lia|]. exists w, log. split; [done|]. nia.
  - destruct (Z.ltb_spec cur maxIter) as [Hlt|Hge].
    2:{ exists w, log. split; [done|]. nia. }
    destruct (reallocatePdaAccount targetSize w) as [w1 [u|e]] eqn:Hre.
    + pose proof (realloc_grows _ _ _ _ Hre) as Hgrow.
      destruct (info_reads w1) as (w2 & -> & Hsame).
      destruct (Z.leb_spec targetSize (size w1)) as [Hreach|Hnot].
      * eexists _, _. split; [done|]. lia.
      * apply IH; lia.
    + destruct (realloc_refuses _ _ _ _ Hre) as [Hno Hat].
      unfold caught. rewrite Hno. eexists _, _. split; [done|]. done.
Qed.

(** When the program keeps that contract and the account starts at 10 KiB
    or more, the method resolves with the account at or above the target,
    and the final size it prints is the size of the account. *)
Theorem reallocation_reaches_target fuel targetSize w :
  10240 <= size w ->
  (Z.to_nat (maxIterations targetSize) <= fuel)%nat ->
  let r := client fuel targetSize w in
  r.2 = Resolved
  /\ targetSize <= size r.1.1
  /\ last r.1.2 = Some (LogFinal (size r.1.1)).
Proof.
  intros Hstart Hfuel r. subst r. unfold reallocatePDAToTargetSize.
  assert (targetSize <= 10240 + 10240 * maxIterations targetSize) as Hup.
  { unfold maxIterations.
    pose proof (ceilDiv_bounds (targetSize - 10240) 10240 ltac:(lia)). lia. }
  destruct (loop_reaches_target fuel targetSize (maxIterations targetSize) 0
              (getReallocationStepsNeeded targetSize w) [LogStart targetSize])
    as (w1 & log1 & -> & Hreached).
  { rewrite steps_keep_size. lia. }
  { by rewrite Z.sub_0_r. }
  destruct (info_reads w1) as (w2 & -> & Hsame). simpl.
  rewrite Hsame. split; [done|]. split; [done|]. by rewrite last_snoc.
Qed.

End Contract.

Lemma small_target_makes_no_call_witness :
  10240 <= 10240
  /\ iterations (runOnChain 10240 0 10240 10240).1.2 = 0%nat
  /\ (runOnChain 10240 0 10240 10240).2 <> Unfinished.
Proof.
  assert (10240 <= 10240) as H by lia. split; [exact H|].
  exact (proj2 (small_target_makes_no_call Z (chainRealloc 10240) chainInfo chainSteps
                  0 10240 10240 H)).
Defined.

Lemma reallocation_reaches_target_witness :
  10240 <= 20480
  /\ (Z.to_nat (maxIterations 1048576) <= 102)%nat
  /\ (runOnChain 10240 102 1048576 20480).2 = Resolved
  /\ 1048576 <= (runOnChain 10240 102 1048576 20480).1.1.
Proof.
  assert (10240 <= 20480) as Hstart by lia.
  assert ((Z.to_nat (maxIterations 1048576) <= 102)%nat) as Hfuel by (vm_compute; lia).
  split; [exact Hstart|]. split; [exact Hfuel|].
  refine (let H := reallocation_reaches_target Z (chainRealloc 10240) chainInfo chainSteps
                     (fun n => n) _ _ _ _ 102 1048576 20480 Hstart Hfuel in
          conj (proj1 H) (proj1 (proj2 H))).
  - intros w. exists w. split; reflexivity.
  - intros t w. reflexivity.
  - intros t w w' u. unfold chainRealloc.
    destruct (Z.leb_spec t w); intros [= <-]. lia.
  - intros t w w' e. unfold chainRealloc.
    destruct (Z.leb_spec t w); intros [= <- <-]. split; [reflexivity | lia].
Defined.

End ReallocationMore.

(** * More on the simulation *)

Module ScriptsFacts.
Import VoiceChat VoiceChatFacts Scripts.
Local Open Scope Z_scope.

(** ** Arrays *)

Lemma indexOf_snoc u ps : u ∉ ps -> indexOf u (ps ++ [u]) = Some (length ps).
Proof.
  induction ps as [|p ps IH]; simpl; intros Hu.
  - by rewrite decide_True.
  - apply not_elem_of_cons in Hu as [Hne Hu].
    rewrite decide_False by congruence. by rewrite IH.
Qed.

Lemma splice1_snoc (u : string) ps : splice1 (length ps) (ps ++ [u]) = ps.
Proof. unfold splice1. rewrite delete_middle. apply app_nil_r. Qed.

Lemma pair_of {A B} (p : A * B) (b : B) : p.2 = b -> p = (p.1, b).
Proof. intros <-. by destruct p. Qed.

(** ** Creating a room *)

(** [createRoom] stores the room before it looks at the host.  The room is
    there afterwards, active, with the host as its only participant, whether
    the host is a user or not; with a host that is no user the call throws a
    [TypeError] and the users are as before, with a host that is one it
    returns the room's identifier and the room is added to the host's rooms.
    Messages and storage are untouched. *)
Theorem createRoom_stores_room_first s d h n :
  let res := createRoom d h n s in
  roomHas res.1 (roomIdOf d) [h] true
  /\ match users s !! h with
     | Some user =>
         res.2 = Returned (roomIdOf d)
         /\ users res.1 = <[h := user_joined (roomIdOf d) user]> (users s)
     | None => res.2 = Thrown TypeError /\ users res.1 = users s
     end
  /\ messages res.1 = messages s
  /\ storage res.1 = storage s.
Proof.
  unfold createRoom. simpl. destruct (users s !! h) as [user|]; simpl.
  - split; [|done]. eexists. simpl. rewrite lookup_insert_eq. done.
  - split; [|done]. eexists. simpl. rewrite lookup_insert_eq. done.
Qed.

(** ** Joining *)

(** When [joinRoom] throws, either nothing has changed, or the error is the
    [TypeError] of an unknown user on a room that could be joined, and then
    the unknown identifier has been added to the room's participants. *)
Theorem joinRoom_throw_effects s d u r s' e :
  joinRoom d u r s = (s', Thrown e) ->
  (e <> TypeError /\ s' = s)
  \/ (e = TypeError /\ users s !! u = None
      /\ exists ps, roomHas s r ps true /\ (u ∉ ps) /\ (length ps < 10)%nat
                    /\ roomHas s' r (ps ++ [u]) true
                    /\ users s' = users s).
Proof.
  unfold joinRoom. destruct (rooms s !! r) as [room|] eqn:Hr.
  2:{ intros [= <- <-]. by left. }
  destruct (isActive room) eqn:Hact; simpl.
  2:{ intros [= <- <-]. by left. }
  unfold includes. case_bool_decide as Hin.
  { intros [= <- <-]. by left. }
  destruct (Z.leb_spec 10 (Z.of_nat (length (participants room)))) as [Hfull|Hroom].
  { intros [= <- <-]. by left. }
  destruct (users s !! u) as [user|] eqn:Hu; [done|].
  intros [= <- <-]. right. do 2 (split; [done|]).
  exists (participants room). split; [by exists room|]. split; [done|]. split; [lia|].
  split; [|done]. eexists. simpl. rewrite lookup_insert_eq. done.
Qed.

Lemma joinRoom_throw_effects_witness :
  joinRoom (draw "j" 4) "user_ghost" standup opened
  = ((joinRoom (draw "j" 4) "user_ghost" standup opened).1, Thrown TypeError)
  /\ ((TypeError <> TypeError
       /\ (joinRoom (draw "j" 4) "user_ghost" standup opened).1 = opened)
      \/ (TypeError = TypeError /\ users opened !! "user_ghost" = None
          /\ exists ps, roomHas opened standup ps true /\ ("user_ghost" ∉ ps)
                        /\ (length ps < 10)%nat
                        /\ roomHas (joinRoom (draw "j" 4) "user_ghost" standup opened).1
                             standup (ps ++ ["user_ghost"]) true
                        /\ users (joinRoom (draw "j" 4) "user_ghost" standup opened).1
                           = users opened)).
Proof.
  assert (joinRoom (draw "j" 4) "user_ghost" standup opened
          = ((joinRoom (draw "j" 4) "user_ghost" standup opened).1, Thrown TypeError)) as H
    by (apply pair_of; vm_compute; reflexivity).
  split; [exact H|].
  exact (joinRoom_throw_effects opened (draw "j" 4) "user_ghost" standup _ TypeError H).
Defined.

(** A user who is not yet in an active room of fewer than 10 joins it: the
    call returns, the user is the last of the participants and the others
    keep their places, the room is the last of the user's rooms, and
    messages, storage and the set of users are as before. *)
Theorem joinRoom_returns s d u r ps user :
  roomHas s r ps true -> users s !! u = Some user ->
  u ∉ ps -> (length ps < 10)%nat ->
  let res := joinRoom d u r s in
  res.2 = Returned tt
  /\ roomHas res.1 r (ps ++ [u]) true
  /\ users res.1 = <[u := user_joined r user]> (users s)
  /\ joinedRooms (user_joined r user) = joinedRooms user ++ [r]
  /\ messages res.1 = messages s
  /\ storage res.1 = storage s.
Proof.
  intros (room & Hr & <- & Hact) Hu Hin Hlen. unfold joinRoom.
  rewrite Hr, Hact. simpl. unfold includes. rewrite bool_decide_eq_false_2 by done.
  destruct (Z.leb_spec 10 (Z.of_nat (length (participants room)))); [lia|].
  rewrite Hu. simpl. split; [done|]. split; [|done].
  eexists. simpl. rewrite lookup_insert_eq. done.
Qed.

Lemma joinRoom_returns_witness :
  roomHas opened standup [alice] true
  /\ users (createUser (draw "b" 2) "Bob" opened).1 !! bob
     = Some {| user_id := bob; user_name := "Bob"; joinedRooms := []; messagesSent := 0 |}
  /\ (bob ∉ [alice])
  /\ (length [alice] < 10)%nat
  /\ (joinRoom (draw "j" 4) bob standup (createUser (draw "b" 2) "Bob" opened).1).2
     = Returned tt
  /\ roomHas (joinRoom (draw "j" 4) bob standup (createUser (draw "b" 2) "Bob" opened).1).1
       standup ([alice] ++ [bob]) true.
Proof.
  assert (roomHas (createUser (draw "b" 2) "Bob" opened).1 standup [alice] true) as Hroom.
  { exists openedStandup. split; [vm_compute; reflexivity|]. done. }
  assert (users (createUser (draw "b" 2) "Bob" opened).1 !! bob
          = Some {| user_id := bob; user_name := "Bob"; joinedRooms := [];
                    messagesSent := 0 |}) as Hu by (vm_compute; reflexivity).
  assert (bob ∉ [alice]) as Hin by (apply (bool_decide_unpack _); vm_compute; exact I).
  assert ((length [alice] < 10)%nat) as Hlen by (simpl; lia).
  split; [exists openedStandup; split; [vm_compute; reflexivity | done]|].
  split; [exact Hu|]. split; [exact Hin|]. split; [exact Hlen|].
  pose proof (joinRoom_returns _ (draw "j" 4) bob standup [alice] _ Hroom Hu Hin Hlen)
    as (H1 & H2 & _).
  split; [exact H1 | exact H2].
Defined.

(** ** Leaving *)

Lemma filter_absent (l : list string) x : x ∉ l -> filter (fun y => y <> x) l = l.
Proof.
  induction l as [|y l IH]; intros Hx; [done|].
  apply not_elem_of_cons in Hx as [Hne Hx].
  rewrite filter_cons_True by congruence. by rewrite IH.
Qed.

Lemma delete_first_filter (l : list string) k x :
  NoDup l -> l !! k = Some x -> delete k l = filter (fun y => y <> x) l.
Proof.
  revert k. induction l as [|y l IH]; intros k Hnd Hk; [done|].
  apply NoDup_cons in Hnd as [Hy Hnd]. destruct k as [|k]; simpl in *.
  - injection Hk as ->. rewrite filter_cons_False by (intros H; by apply H).
    by rewrite filter_absent.
  - rewrite filter_cons_True.
    + f_equal. by apply IH.
    + intros ->. apply Hy. by eapply list_elem_of_lookup_2.
Qed.

(** When [leaveRoom] throws, nothing has changed, and the error says why:
    [NotFound] for a missing room or user, [NotMember] for a user who is
    not a participant.  It never looks at the active flag. *)
Theorem leaveRoom_throw_effects s d u r s' e :
  leaveRoom d u r s = (s', Thrown e) ->
  s' = s
  /\ ((e = NotFound /\ (rooms s !! r = None \/ users s !! u = None))
      \/ (e = NotMember
          /\ exists room, rooms s !! r = Some room /\ (u ∉ participants room)
                          /\ is_Some (users s !! u))).
Proof.
  unfold leaveRoom. destruct (rooms s !! r) as [room|] eqn:Hr.
  2:{ intros [= <- <-]. split; [done|]. left. auto. }
  destruct (users s !! u) as [user|] eqn:Hu.
  2:{ intros [= <- <-]. split; [done|]. left. auto. }
  destruct (indexOf u (participants room)) as [k|] eqn:Hk; [done|].
  intros [= <- <-]. split; [done|]. right. split; [done|].
  exists room. split; [done|]. split; [by apply indexOf_None | by eexists].
Qed.

Lemma leaveRoom_throw_effects_witness :
  leaveRoom (draw "l" 5) alice standup emptied
  = ((leaveRoom (draw "l" 5) alice standup emptied).1, Thrown NotMember)
  /\ (leaveRoom (draw "l" 5) alice standup emptied).1 = emptied.
Proof.
  assert (leaveRoom (draw "l" 5) alice standup emptied
          = ((leaveRoom (draw "l" 5) alice standup emptied).1, Thrown NotMember)) as H
    by (apply pair_of; vm_compute; reflexivity).
  split; [exact H|].
  exact (proj1 (leaveRoom_throw_effects emptied (draw "l" 5) alice standup _ _ H)).
Defined.

(** In a state reached through returning calls, a [leaveRoom] that returns
    takes exactly the user out of the room's participants and exactly the
    room out of the user's rooms; the others keep their order.  The room is
    deactivated when nobody is left and keeps its flag otherwise. *)
Theorem leaveRoom_removes s d u r room user :
  steps_ok newDemo s ->
  rooms s !! r = Some room -> users s !! u = Some user -> u ∈ participants room ->
  let res := leaveRoom d u r s in
  res.2 = Returned tt
  /\ exists room' user',
       rooms res.1 !! r = Some room' /\ users res.1 !! u = Some user'
       /\ participants room' = filter (fun y => y <> u) (participants room)
       /\ joinedRooms user' = filter (fun y => y <> r) (joinedRooms user)
       /\ (u ∉ participants room') /\ (r ∉ joinedRooms user')
       /\ isActive room' = (if decide (participants room' = []) then false
                            else isActive room).
Proof.
  intros Hsteps Hr Hu Hin res. subst res.
  assert (consistent newDemo) as Hinit by (split; intros k x Hk; by simpl in Hk).
  destruct (steps_ok_consistent newDemo s Hsteps Hinit) as [Hps Hjs].
  destruct (Hps r room Hr) as [Hnd Hmem]. destruct (Hjs u user Hu) as [Hnd' Hmem'].
  destruct (indexOf_elem _ _ Hin) as [k Hk].
  assert (r ∈ joinedRooms user) as Hjoined.
  { destruct (Hmem u Hin) as (user0 & Hus & Hin0). congruence. }
  destruct (indexOf_elem _ _ Hjoined) as [j Hj].
  unfold leaveRoom. rewrite Hr, Hu, Hk. simpl. split; [done|].
  eexists _, _. rewrite !lookup_insert_eq. do 2 (split; [done|]). simpl. rewrite Hj.
  unfold splice1.
  rewrite (delete_first_filter _ _ _ Hnd (indexOf_Some _ _ _ Hk)).
  rewrite (delete_first_filter _ _ _ Hnd' (indexOf_Some _ _ _ Hj)).
  do 2 (split; [done|]).
  split; [intros [H _]%list_elem_of_filter; by apply H|].
  split; [intros [H _]%list_elem_of_filter; by apply H|].
  destruct (filter _ (participants room)); simpl; by repeat case_decide.
Qed.

Lemma leaveRoom_removes_witness :
  steps_ok newDemo inStandup
  /\ rooms inStandup !! standup
     = Some {| room_id := standup; room_name := "Daily Standup"; host := alice;
               participants := [alice; bob]; isActive := true; createdAt := 3;
               lastActivity := 4; messageCount := 0 |}
  /\ users inStandup !! alice = Some aliceOpened
  /\ alice ∈ [alice; bob]
  /\ (leaveRoom (draw "l" 5) alice standup inStandup).2 = Returned tt.
Proof.
  assert (steps_ok newDemo inStandup) as Hsteps
    by (apply runAll_steps_ok; vm_compute; repeat split).
  assert (rooms inStandup !! standup
     = Some {| room_id := standup; room_name := "Daily Standup"; host := alice;
               participants := [alice; bob]; isActive := true; createdAt := 3;
               lastActivity := 4; messageCount := 0 |}) as Hr by (vm_compute; reflexivity).
  assert (users inStandup !! alice = Some aliceOpened) as Hu by (vm_compute; reflexivity).
  assert (alice ∈ [alice; bob]) as Hin by left.
  do 4 (split; [assumption|]).
  exact (proj1 (leaveRoom_removes inStandup (draw "l" 5) alice standup _ _ Hsteps Hr Hu Hin)).
Defined.

(** Joining a room that has participants and leaving it again brings the
    membership back: the room has the participants it had, in their order,
    and is still active, and the user has the rooms it had.  (Only the
    room's last activity has moved.) *)
Theorem join_then_leave_restores s d d' u r ps user :
  roomHas s r ps true -> ps <> [] -> users s !! u = Some user ->
  u ∉ ps -> (length ps < 10)%nat -> r ∉ joinedRooms user ->
  let joined := (joinRoom d u r s).1 in
  let res := leaveRoom d' u r joined in
  res.2 = Returned tt
  /\ roomHas res.1 r ps true
  /\ (exists user', users res.1 !! u = Some user'
                    /\ joinedRooms user' = joinedRooms user
                    /\ messagesSent user' = messagesSent user)
  /\ messages res.1 = messages s
  /\ storage res.1 = storage s.
Proof.
  intros (room & Hr & <- & Hact) Hne Hu Hin Hlen Hnot. unfold joinRoom.
  rewrite Hr, Hact. simpl. unfold includes. rewrite bool_decide_eq_false_2 by done.
  destruct (Z.leb_spec 10 (Z.of_nat (length (participants room)))); [lia|].
  rewrite Hu. simpl. unfold leaveRoom. simpl. rewrite !lookup_insert_eq. simpl.
  rewrite (indexOf_snoc _ _ Hin). simpl. split; [done|].
  split; [|split; [|done]].
  - eexists. simpl. rewrite lookup_insert_eq. split; [done|]. simpl.
    rewrite splice1_snoc. split; [done|].
    destruct (participants room); [done|]. by rewrite decide_False.
  - eexists. rewrite lookup_insert_eq. split; [done|]. simpl.
    rewrite (indexOf_snoc _ _ Hnot), splice1_snoc. done.
Qed.

Lemma join_then_leave_restores_witness :
  roomHas (createUser (draw "b" 2) "Bob" opened).1 standup [alice] true
  /\ [alice] <> []
  /\ (leaveRoom (draw "l" 5) bob standup
        (joinRoom (draw "j" 4) bob standup (createUser (draw "b" 2) "Bob" opened).1).1).2
     = Returned tt
  /\ roomHas
       (leaveRoom (draw "l" 5) bob standup
          (joinRoom (draw "j" 4) bob standup (createUser (draw "b" 2) "Bob" opened).1).1).1
       standup [alice] true.
Proof.
  assert (roomHas (createUser (draw "b" 2) "Bob" opened).1 standup [alice] true) as Hroom.
  { exists openedStandup. split; [vm_compute; reflexivity|]. done. }
  assert ([alice] <> []) as Hne by discriminate.
  assert (users (createUser (draw "b" 2) "Bob" opened).1 !! bob
          = Some {| user_id := bob; user_name := "Bob"; joinedRooms := [];
                    messagesSent := 0 |}) as Hu by (vm_compute; reflexivity).
  assert (bob ∉ [alice]) as Hin by (apply (bool_decide_unpack _); vm_compute; exact I).
  assert ((length [alice] < 10)%nat) as Hlen by (simpl; lia).
  assert (standup ∉ joinedRooms {| user_id := bob; user_name := "Bob"; joinedRooms := [];
                                   messagesSent := 0 |}) as Hnot by apply not_elem_of_nil.
  split; [exact Hroom|]. split; [exact Hne|].
  pose proof (join_then_leave_restores _ (draw "j" 4) (draw "l" 5) bob standup [alice] _
                Hroom Hne Hu Hin Hlen Hnot) as (H1 & H2 & _).
  split; [exact H1 | exact H2].
Defined.

(** ** Sending *)

Lemma fits_spec s i n : fits s i n <-> usedOf s i + n <= capOf s i.
Proof. unfold fits, usedOf, capOf. by destruct (storage s !! i). Qed.

Lemma send_succeeds s d u r data i room user :
  rooms s !! r = Some room -> users s !! u = Some user ->
  u ∈ participants room -> Z.of_nat (length data) <= 29 * 1024 ->
  fits s i (Z.of_nat (length data)) ->
  sendVoiceMessage d u r data i s
  = (sentState d u r data i room user s, Returned (messageIdOf d)).
Proof.
  intros Hr Hu Hin Hlen Hfit. unfold sendVoiceMessage, sentState, sentSlot.
  unfold fits in Hfit. rewrite Hr, Hu. unfold includes.
  rewrite bool_decide_eq_true_2 by done. simpl.
  destruct (Z.ltb_spec (29 * 1024) (Z.of_nat (length data))) as [?|_]; [lia|].
  destruct (storage s !! i) as [pda|] eqn:Hi; simpl in *.
  - destruct (Z.ltb_spec (capacity pda) (used pda + Z.of_nat (length data))); [lia|done].
  - destruct (Z.ltb_spec (30 * 1024) (0 + Z.of_nat (length data))); [lia|].
    by rewrite insert_insert_eq.
Qed.

Lemma send_returned s d u r data i s' id :
  sendVoiceMessage d u r data i s = (s', Returned id) ->
  exists room user,
    rooms s !! r = Some room /\ users s !! u = Some user
    /\ u ∈ participants room /\ Z.of_nat (length data) <= 29 * 1024
    /\ fits s i (Z.of_nat (length data))
    /\ id = messageIdOf d /\ s' = sentState d u r data i room user s.
Proof.
  intros Hsend.
  assert (exists room user, rooms s !! r = Some room /\ users s !! u = Some user
            /\ u ∈ participants room /\ Z.of_nat (length data) <= 29 * 1024)
    as (room & user & Hr & Hu & Hin & Hlen).
  { revert Hsend. unfold sendVoiceMessage.
    destruct (rooms s !! r) as [room|]; [|done].
    destruct (users s !! u) as [user|]; [|done].
    unfold includes. case_bool_decide as Hin; [|done]. simpl.
    destruct (Z.ltb_spec (29 * 1024) (Z.of_nat (length data))); [done|].
    intros _. by exists room, user. }
  exists room, user. do 4 (split; [done|]).
  destruct (send_member s d u r data i room user Hr Hu Hin Hlen)
    as (_ & _ & _ & [(Hfit & _)|(_ & Hthrown & _)]).
  - split; [done|].
    rewrite (send_succeeds s d u r data i room user Hr Hu Hin Hlen Hfit) in Hsend.
    by injection Hsend as <- <-.
  - rewrite Hsend in Hthrown. discriminate Hthrown.
Qed.

(** When [sendVoiceMessage] throws, either nothing has changed and the error
    is [NotFound], [NotMember] or, for a participant's payload of more than
    29 KiB, [PayloadTooLarge]; or the error is [SlotFull] for the target
    slot, the payload was within 29 KiB and did not fit the slot. *)
Theorem send_throw_effects s d u r data i s' e :
  sendVoiceMessage d u r data i s = (s', Thrown e) ->
  (s' = s
   /\ (e = NotFound \/ e = NotMember
       \/ (e = PayloadTooLarge /\ 29 * 1024 < Z.of_nat (length data))))
  \/ (e = SlotFull i
      /\ Z.of_nat (length data) <= 29 * 1024
      /\ ~ fits s i (Z.of_nat (length data))).
Proof.
  intros Hsend. revert Hsend. unfold sendVoiceMessage.
  destruct (rooms s !! r) as [room|] eqn:Hr.
  2:{ intros [= <- <-]. left. auto. }
  destruct (users s !! u) as [user|] eqn:Hu.
  2:{ intros [= <- <-]. left. auto. }
  unfold includes. case_bool_decide as Hin; simpl.
  2:{ intros [= <- <-]. left. auto. }
  destruct (Z.ltb_spec (29 * 1024) (Z.of_nat (length data))) as [Hbig|Hok].
  { intros [= <- <-]. left. auto. }
  intros Hsend.
  destruct (send_member s d u r data i room user Hr Hu Hin Hok)
    as (_ & _ & _ & [(_ & Hret & _)|(Hno & Hthrown & _)]).
  - unfold sendVoiceMessage in Hret. rewrite Hr, Hu in Hret. unfold includes in Hret.
    rewrite bool_decide_eq_true_2 in Hret by done. simpl in Hret.
    destruct (Z.ltb_spec (29 * 1024) (Z.of_nat (length data))); [lia|].
    rewrite Hsend in Hret. discriminate Hret.
  - unfold sendVoiceMessage in Hthrown. rewrite Hr, Hu in Hthrown.
    unfold includes in Hthrown.
    rewrite bool_decide_eq_true_2 in Hthrown by done. simpl in Hthrown.
    destruct (Z.ltb_spec (29 * 1024) (Z.of_nat (length data))); [lia|].
    rewrite Hsend in Hthrown. injection Hthrown as <-. right. auto.
Qed.

Lemma send_throw_effects_witness :
  sendVoiceMessage (draw "m" 9) alice standup (bytes 29697) 0 inStandup
  = ((sendVoiceMessage (draw "m" 9) alice standup (bytes 29697) 0 inStandup).1,
     Thrown PayloadTooLarge)
  /\ (((sendVoiceMessage (draw "m" 9) alice standup (bytes 29697) 0 inStandup).1 = inStandup
       /\ (PayloadTooLarge = NotFound \/ PayloadTooLarge = NotMember
           \/ (PayloadTooLarge = PayloadTooLarge
               /\ 29 * 1024 < Z.of_nat (length (bytes 29697)))))
      \/ (PayloadTooLarge = SlotFull 0
          /\ Z.of_nat (length (bytes 29697)) <= 29 * 1024
          /\ ~ fits inStandup 0 (Z.of_nat (length (bytes 29697))))).
Proof.
  assert (sendVoiceMessage (draw "m" 9) alice standup (bytes 29697) 0 inStandup
          = ((sendVoiceMessage (draw "m" 9) alice standup (bytes 29697) 0 inStandup).1,
             Thrown PayloadTooLarge)) as H by (apply pair_of; vm_compute; reflexivity).
  split; [exact H|].
  exact (send_throw_effects inStandup (draw "m" 9) alice standup (bytes 29697) 0 _ _ H).
Defined.

(** A slot that does not exist yet never refuses: a participant's payload of
    at most 29 KiB, the limit included, is always accepted there, and the
    slot is created holding just that message, at a capacity of 30 KiB. *)
Theorem new_slot_accepts s d u r data i room user :
  rooms s !! r = Some room -> users s !! u = Some user ->
  u ∈ participants room -> Z.of_nat (length data) <= 29 * 1024 ->
  storage s !! i = None ->
  let res := sendVoiceMessage d u r data i s in
  res.2 = Returned (messageIdOf d)
  /\ storage res.1 !! i
     = Some {| index := i; capacity := 30 * 1024; used := Z.of_nat (length data);
               pda_messages := [messageIdOf d] |}.
Proof.
  intros Hr Hu Hin Hlen Hnone res. subst res.
  rewrite (send_succeeds s d u r data i room user Hr Hu Hin Hlen).
  - simpl. split; [done|]. rewrite lookup_insert_eq. unfold sentSlot. by rewrite Hnone.
  - unfold fits. rewrite Hnone. simpl. lia.
Qed.

Lemma new_slot_accepts_witness :
  rooms inStandup !! standup
  = Some {| room_id := standup; room_name := "Daily Standup"; host := alice;
            participants := [alice; bob]; isActive := true; createdAt := 3;
            lastActivity := 4; messageCount := 0 |}
  /\ users inStandup !! alice = Some aliceOpened
  /\ alice ∈ [alice; bob]
  /\ Z.of_nat (length (bytes 29696)) <= 29 * 1024
  /\ storage inStandup !! 7 = None
  /\ (sendVoiceMessage (draw "m" 9) alice standup (bytes 29696) 7 inStandup).2
     = Returned (messageIdOf (draw "m" 9)).
Proof.
  assert (rooms inStandup !! standup
     = Some {| room_id := standup; room_name := "Daily Standup"; host := alice;
               participants := [alice; bob]; isActive := true; createdAt := 3;
               lastActivity := 4; messageCount := 0 |}) as Hr by (vm_compute; reflexivity).
  assert (users inStandup !! alice = Some aliceOpened) as Hu by (vm_compute; reflexivity).
  assert (alice ∈ [alice; bob]) as Hin by left.
  assert (Z.of_nat (length (bytes 29696)) <= 29 * 1024) as Hlen
    by (apply Z.leb_le; vm_compute; reflexivity).
  assert (storage inStandup !! 7 = None) as Hnone by (vm_compute; reflexivity).
  do 5 (split; [assumption|]).
  exact (proj1 (new_slot_accepts inStandup (draw "m" 9) alice standup (bytes 29696) 7
                  _ _ Hr Hu Hin Hlen Hnone)).
Defined.

(** What a send stores can be read back: after a [sendVoiceMessage] that
    returns, [getVoiceMessage] of the returned identifier returns the message
    with the sender, room, payload and slot of the send, numbered one above
    the room's count before the send, and the identifier is the last entry
    of the slot's message list. *)
Theorem send_then_get s d u r data i s' id :
  sendVoiceMessage d u r data i s = (s', Returned id) ->
  exists room,
    rooms s !! r = Some room
    /\ getVoiceMessage id s'
       = (s', Returned {| message_id := id; sender := u; roomId := r;
                          voiceData := data; targetPDAIndex := i;
                          sequenceNumber := messageCount room + 1;
                          dataLength := Z.of_nat (length data);
                          timestamp := date1 d |})
    /\ (exists pda, storage s' !! i = Some pda /\ last (pda_messages pda) = Some id).
Proof.
  intros (room & user & Hr & Hu & Hin & Hlen & Hfit & -> & ->)%send_returned.
  exists room. split; [done|]. split.
  - unfold getVoiceMessage, sentState. simpl. rewrite lookup_insert_eq. simpl.
    by rewrite !lookup_insert_eq.
  - eexists. unfold sentState. simpl. rewrite lookup_insert_eq. split; [done|].
    simpl. by rewrite last_snoc.
Qed.

Lemma send_then_get_witness :
  sendVoiceMessage (draw "m" 9) alice standup (bytes 5000) 0 inStandup
  = ((sendVoiceMessage (draw "m" 9) alice standup (bytes 5000) 0 inStandup).1,
     Returned "msg_m")
  /\ exists room,
       rooms inStandup !! standup = Some room
       /\ getVoiceMessage "msg_m"
            (sendVoiceMessage (draw "m" 9) alice standup (bytes 5000) 0 inStandup).1
          = ((sendVoiceMessage (draw "m" 9) alice standup (bytes 5000) 0 inStandup).1,
             Returned {| message_id := "msg_m"; sender := alice; roomId := standup;
                         voiceData := bytes 5000; targetPDAIndex := 0;
                         sequenceNumber := messageCount room + 1;
                         dataLength := Z.of_nat (length (bytes 5000));
                         timestamp := date1 (draw "m" 9) |})
       /\ (exists pda,
             storage (sendVoiceMessage (draw "m" 9) alice standup (bytes 5000) 0 inStandup).1
               !! 0 = Some pda
             /\ last (pda_messages pda) = Some "msg_m").
Proof.
  assert (sendVoiceMessage (draw "m" 9) alice standup (bytes 5000) 0 inStandup
          = ((sendVoiceMessage (draw "m" 9) alice standup (bytes 5000) 0 inStandup).1,
             Returned "msg_m")) as H by (apply pair_of; vm_compute; reflexivity).
  split; [exact H|].
  exact (send_then_get inStandup (draw "m" 9) alice standup (bytes 5000) 0 _ _ H).
Defined.

(** ** What the calls keep *)

Lemma is_Some_insert {K A} `{Countable K} (m : gmap K A) k k' v :
  is_Some (m !! k) -> is_Some (<[k' := v]> m !! k).
Proof. intros Hk. apply lookup_insert_is_Some'. by right. Qed.

Lemma extends_refl s : extends s s.
Proof. by repeat split. Qed.

Lemma extends_trans s1 s2 s3 : extends s1 s2 -> extends s2 s3 -> extends s1 s3.
Proof.
  intros (A1 & A2 & A3 & A4) (B1 & B2 & B3 & B4). repeat split; auto.
Qed.

Ltac grown :=
  unfold extends; repeat split; intros ? ?; simpl;
  try done; repeat apply is_Some_insert; done.

Lemma createUser_extends d n s : extends s (createUser d n s).1.
Proof. unfold createUser. simpl. grown. Qed.

Lemma createRoom_extends d h n s : extends s (createRoom d h n s).1.
Proof. unfold createRoom. simpl. destruct (users s !! h); simpl; grown. Qed.

Lemma joinRoom_extends d u r s : extends s (joinRoom d u r s).1.
Proof.
  unfold joinRoom. destruct (rooms s !! r) as [room|]; [|apply extends_refl].
  destruct (negb _); [apply extends_refl|].
  destruct (includes _ _); [apply extends_refl|].
  destruct (10 <=? _); [apply extends_refl|].
  destruct (users s !! u); simpl; grown.
Qed.

Lemma leaveRoom_extends d u r s : extends s (leaveRoom d u r s).1.
Proof.
  unfold leaveRoom. destruct (rooms s !! r) as [room|]; [|apply extends_refl].
  destruct (users s !! u); [|apply extends_refl].
  destruct (indexOf _ _); [|apply extends_refl]. simpl. grown.
Qed.

Lemma send_extends d u r data i s : extends s (sendVoiceMessage d u r data i s).1.
Proof.
  unfold sendVoiceMessage. destruct (rooms s !! r) as [room|]; [|apply extends_refl].
  destruct (users s !! u); [|apply extends_refl].
  destruct (negb _); [apply extends_refl|].
  destruct (29 * 1024 <? _); [apply extends_refl|].
  destruct (storage s !! i) as [pda|]; destruct (_ <? _); simpl; grown.
Qed.

Lemma send_usedOf_mono d u r data i s j :
  usedOf s j <= usedOf (sendVoiceMessage d u r data i s).1 j.
Proof.
  unfold sendVoiceMessage, usedOf.
  destruct (rooms s !! r) as [room|]; [|done].
  destruct (users s !! u); [|done].
  destruct (negb _); [done|]. destruct (29 * 1024 <? _); [done|].
  destruct (storage s !! i) as [pda|] eqn:Hi; destruct (_ <? _); simpl; try done.
  - rewrite lookup_insert. case_decide; [subst; rewrite Hi; simpl; lia | done].
  - rewrite lookup_insert. case_decide; [subst; by rewrite Hi | done].
  - rewrite insert_insert_eq, lookup_insert.
    case_decide; [subst; rewrite Hi; simpl; lia | done].
Qed.

Lemma send_messages d u r data i s id m :
  messages (sendVoiceMessage d u r data i s).1 !! id = Some m ->
  messages s !! id = Some m
  \/ (sender m = u /\ roomId m = r
      /\ is_Some (users s !! u) /\ is_Some (rooms s !! r)).
Proof.
  unfold sendVoiceMessage. destruct (rooms s !! r) as [room|] eqn:Hr; [|by left].
  destruct (users s !! u) as [user|] eqn:Hu; [|by left].
  destruct (negb _); [by left|]. destruct (29 * 1024 <? _); [by left|].
  destruct (storage s !! i) as [pda|]; destruct (_ <? _); simpl;
    rewrite lookup_insert; case_decide; try (by left);
    intros [= <-]; right; simpl; eauto.
Qed.

Lemma send_slots_ok d u r data i s :
  slots_ok s -> slots_ok (sendVoiceMessage d u r data i s).1.
Proof.
  intros Hs. unfold sendVoiceMessage.
  destruct (rooms s !! r) as [room|]; [|done].
  destruct (users s !! u) as [user|]; [|done].
  destruct (negb _); [done|]. destruct (29 * 1024 <? _); [done|].
  destruct (storage s !! i) as [pda|] eqn:Hi; destruct (_ <? _); simpl; try done.
  - intros j pda'. simpl. rewrite lookup_insert. case_decide; [|apply Hs].
    intros [= <-]. simpl. destruct (Hs i pda Hi) as (? & ? & ?). subst. lia.
  - intros j pda'. simpl. rewrite lookup_insert. case_decide; [|apply Hs].
    intros [= <-]. simpl. subst. lia.
  - intros j pda'. simpl. rewrite insert_insert_eq, lookup_insert.
    case_decide; [|apply Hs]. intros [= <-]. simpl. subst. lia.
Qed.

(** Only a send adds a message. *)
Lemma createRoom_messages d h n s : messages (createRoom d h n s).1 = messages s.
Proof. unfold createRoom. simpl. by destruct (users s !! h). Qed.

Lemma joinRoom_messages d u r s : messages (joinRoom d u r s).1 = messages s.
Proof.
  unfold joinRoom. destruct (rooms s !! r) as [room|]; [|done].
  destruct (negb _); [done|]. destruct (includes _ _); [done|].
  destruct (10 <=? _); [done|]. by destruct (users s !! u).
Qed.

Lemma leaveRoom_messages d u r s : messages (leaveRoom d u r s).1 = messages s.
Proof.
  unfold leaveRoom. destruct (rooms s !! r) as [room|]; [|done].
  destruct (users s !! u); [|done]. by destruct (indexOf _ _).
Qed.

Lemma messages_ok_extends s s' :
  extends s s' -> messages s' = messages s -> messages_ok s -> messages_ok s'.
Proof.
  intros (Hu & Hr & _) Heq Hok id m. rewrite Heq. intros Hm.
  destruct (Hok id m Hm). split; auto.
Qed.

Lemma steps_extends s s' : steps s s' -> extends s s'.
Proof.
  intros Hsteps. apply (steps_keep (extends s)) with (s := s); auto using extends_refl;
    intros; eapply extends_trans; eauto using send_extends, createUser_extends,
      createRoom_extends, joinRoom_extends, leaveRoom_extends.
Qed.

Lemma steps_usedOf_mono s s' j : steps s s' -> usedOf s j <= usedOf s' j.
Proof.
  intros Hsteps. apply (steps_keep (fun x => usedOf s j <= usedOf x j)) with (s := s);
    [| | | | |done|lia]; unfold usedOf.
  - intros d u r data i s0 H. pose proof (send_usedOf_mono d u r data i s0 j) as H'.
    unfold usedOf in H'. lia.
  - done.
  - intros d h n s0 _. by rewrite createRoom_storage.
  - intros d u r s0. by rewrite joinRoom_storage.
  - intros d u r s0. by rewrite leaveRoom_storage.
Qed.

(** Nothing is ever removed: along any sequence of calls, returning or
    throwing, every user, room, message and slot that exists keeps existing,
    and the bytes used in a slot never go down. *)
Theorem nothing_is_deleted s s' :
  steps s s' ->
  extends s s' /\ forall i, usedOf s i <= usedOf s' i.
Proof.
  intros Hsteps. split; [by apply steps_extends|].
  intros i. by apply steps_usedOf_mono.
Qed.

Lemma steps_later : steps inStandup later.
Proof. apply runAll_steps. cbn [freshAll laterCalls fresh]. done. Qed.

Lemma nothing_is_deleted_witness :
  steps inStandup later
  /\ extends inStandup later
  /\ usedOf inStandup 0 <= usedOf later 0.
Proof.
  pose proof steps_later as H.
  split; [exact H|].
  exact (conj (proj1 (nothing_is_deleted _ _ H)) (proj2 (nothing_is_deleted _ _ H) 0)).
Defined.

Lemma steps_slots_ok s s' : steps s s' -> slots_ok s -> slots_ok s'.
Proof.
  apply (steps_keep slots_ok); auto using send_slots_ok; unfold slots_ok; intros.
  - by rewrite createRoom_storage in *; eauto.
  - by rewrite joinRoom_storage in *; eauto.
  - by rewrite leaveRoom_storage in *; eauto.
Qed.

Lemma steps_messages_ok s s' : steps s s' -> messages_ok s -> messages_ok s'.
Proof.
  apply (steps_keep messages_ok).
  - intros d u r data i s0 Hok id m Hm.
    destruct (send_extends d u r data i s0) as (Hu & Hr & _).
    destruct (send_messages _ _ _ _ _ _ _ _ Hm) as [Hold|(-> & -> & Hsu & Hsr)].
    + destruct (Hok id m Hold). split; auto.
    + split; auto.
  - intros d n s0 _. apply messages_ok_extends; [apply createUser_extends | done].
  - intros d h n s0 _.
    apply messages_ok_extends; [apply createRoom_extends | apply createRoom_messages].
  - intros d u r s0.
    apply messages_ok_extends; [apply joinRoom_extends | apply joinRoom_messages].
  - intros d u r s0.
    apply messages_ok_extends; [apply leaveRoom_extends | apply leaveRoom_messages].
Qed.

(** In every reachable state each slot is stored under its own index, has
    the capacity of 30 KiB, fixed for good, and a usage between 0 and that
    capacity. *)
Theorem slots_keep_their_shape s i pda :
  reachable s -> storage s !! i = Some pda ->
  index pda = i /\ capacity pda = 30 * 1024 /\ 0 <= used pda <= 30 * 1024.
Proof.
  intros Hreach Hi.
  assert (slots_ok s) as Hok.
  { apply (steps_slots_ok newDemo s Hreach). intros j p Hj. by simpl in Hj. }
  assert (storage_ok s) as Hcap.
  { apply (steps_storage_ok newDemo s Hreach). intros j p Hj. by simpl in Hj. }
  destruct (Hok i pda Hi) as (Hidx & Hc & Hu). specialize (Hcap i pda Hi). lia.
Qed.

Lemma slots_keep_their_shape_witness :
  reachable afterBroadcast
  /\ storage afterBroadcast !! 0
     = Some {| index := 0; capacity := 30720; used := 10000; pda_messages := ["msg_0"] |}
  /\ 0 <= 10000 <= 30 * 1024.
Proof.
  assert (storage afterBroadcast !! 0
          = Some {| index := 0; capacity := 30720; used := 10000;
                    pda_messages := ["msg_0"] |}) as Hpda by (vm_compute; reflexivity).
  split; [exact reachable_afterBroadcast|]. split; [exact Hpda|].
  exact (proj2 (proj2 (slots_keep_their_shape afterBroadcast 0 _
                         reachable_afterBroadcast Hpda))).
Defined.

(** In every reachable state [getVoiceMessage] never meets a missing sender
    or room: it returns the stored message, or throws [NotFound] for an
    identifier that is not stored, and leaves the state as it is. *)
Theorem getVoiceMessage_reads s id :
  reachable s ->
  getVoiceMessage id s
  = (s, match messages s !! id with
        | Some m => Returned m
        | None => Thrown NotFound
        end).
Proof.
  intros Hreach.
  assert (messages_ok s) as Hok.
  { apply (steps_messages_ok newDemo s Hreach). intros j p Hj. by simpl in Hj. }
  unfold getVoiceMessage. destruct (messages s !! id) as [m|] eqn:Hm; [|done].
  destruct (Hok id m Hm) as [[user ->] [room ->]]. done.
Qed.

Lemma getVoiceMessage_reads_witness :
  reachable afterBroadcast
  /\ getVoiceMessage "msg_nope" afterBroadcast = (afterBroadcast, Thrown NotFound).
Proof.
  split; [exact reachable_afterBroadcast|].
  exact (getVoiceMessage_reads afterBroadcast "msg_nope" reachable_afterBroadcast).
Defined.

(** ** Counters *)

Lemma insert_keeps {A} (Q : A -> Prop) (g : A -> A) (m : gmap string A) k0 x0 k :
  m !! k0 = Some x0 -> (forall x, Q x -> Q (g x)) ->
  (exists x, m !! k = Some x /\ Q x) ->
  exists x, <[k0 := g x0]> m !! k = Some x /\ Q x.
Proof.
  intros H0 Hg (x & Hk & Hx). rewrite lookup_insert. case_decide.
  - subst. exists (g x0). split; [done|]. apply Hg. congruence.
  - by exists x.
Qed.

Lemma createRoom_users d h n s :
  users (createRoom d h n s).1 = users s
  \/ exists user, users s !! h = Some user
       /\ users (createRoom d h n s).1 = (<[h := user_joined (roomIdOf d) user]> (users s)).
Proof.
  unfold createRoom. simpl. destruct (users s !! h) as [user|] eqn:Hh; [|by left].
  right. by exists user.
Qed.

Lemma joinRoom_users d u r s :
  users (joinRoom d u r s).1 = users s
  \/ exists user, users s !! u = Some user
       /\ users (joinRoom d u r s).1 = (<[u := user_joined r user]> (users s)).
Proof.
  unfold joinRoom. destruct (rooms s !! r) as [room|]; [|by left].
  destruct (negb _); [by left|]. destruct (includes _ _); [by left|].
  destruct (10 <=? _); [by left|].
  destruct (users s !! u) as [user|] eqn:Hu; [|by left]. right. by exists user.
Qed.

Lemma leaveRoom_users d u r s :
  users (leaveRoom d u r s).1 = users s
  \/ exists user, users s !! u = Some user
       /\ users (leaveRoom d u r s).1 = (<[u := user_left r user]> (users s)).
Proof.
  unfold leaveRoom. destruct (rooms s !! r) as [room|]; [|by left].
  destruct (users s !! u) as [user|] eqn:Hu; [|by left].
  destruct (indexOf _ _); [|by left]. right. by exists user.
Qed.

Section Kept.

Variable Qr : Room -> Prop.
Hypothesis Qr_joined : forall u t x, Qr x -> Qr (room_joined u t x).
Hypothesis Qr_sent : forall t x, Qr x -> Qr (room_sent t x).
Hypothesis Qr_left : forall k t x, Qr x -> Qr (room_left k t x).

(** A property of a room that joins, sends and leaves keep holds for the
    room from then on. *)
Lemma steps_keep_room r s s' :
  steps s s' ->
  (exists x, rooms s !! r = Some x /\ Qr x) ->
  exists x, rooms s' !! r = Some x /\ Qr x.
Proof.
  apply (steps_keep (fun st => exists x, rooms st !! r = Some x /\ Qr x)).
  - intros d u r0 data i s0 H.
    destruct (send_rooms d u r0 data i s0) as [->|(room0 & Hr0 & ->)]; [done|].
    apply (insert_keeps Qr (room_sent (date2 d))); auto.
  - intros d n s0 _ H. exact H.
  - intros d h n s0 Hfresh (x & Hx & HQ). rewrite createRoom_rooms.
    exists x. rewrite lookup_insert_ne by congruence. done.
  - intros d u r0 s0 H.
    destruct (joinRoom_rooms d u r0 s0) as [->|(room0 & Hr0 & _ & _ & _ & ->)]; [done|].
    apply (insert_keeps Qr (room_joined u (date1 d))); auto.
  - intros d u r0 s0 H.
    destruct (leaveRoom_rooms d u r0 s0) as [->|(room0 & k & Hr0 & _ & ->)]; [done|].
    apply (insert_keeps Qr (room_left k (date1 d))); auto.
Qed.

Variable Qu : User -> Prop.
Hypothesis Qu_joined : forall r x, Qu x -> Qu (user_joined r x).
Hypothesis Qu_sent : forall x, Qu x -> Qu (user_sent x).
Hypothesis Qu_left : forall r x, Qu x -> Qu (user_left r x).

Lemma steps_keep_user u s s' :
  steps s s' ->
  (exists x, users s !! u = Some x /\ Qu x) ->
  exists x, users s' !! u = Some x /\ Qu x.
Proof.
  apply (steps_keep (fun st => exists x, users st !! u = Some x /\ Qu x)).
  - intros d u0 r data i s0 H.
    destruct (send_users d u0 r data i s0) as [->|(user0 & Hu0 & ->)]; [done|].
    apply (insert_keeps Qu user_sent); auto.
  - intros d n s0 Hfresh (x & Hx & HQ). simpl.
    exists x. rewrite lookup_insert_ne by congruence. done.
  - intros d h n s0 _ H.
    destruct (createRoom_users d h n s0) as [->|(user0 & Hu0 & ->)]; [done|].
    apply (insert_keeps Qu (user_joined (roomIdOf d))); auto.
  - intros d u0 r s0 H.
    destruct (joinRoom_users d u0 r s0) as [->|(user0 & Hu0 & ->)]; [done|].
    apply (insert_keeps Qu (user_joined r)); auto.
  - intros d u0 r s0 H.
    destruct (leaveRoom_users d u0 r s0) as [->|(user0 & Hu0 & ->)]; [done|].
    apply (insert_keeps Qu (user_left r)); auto.
Qed.

End Kept.

Lemma steps_room_count s s' r room :
  steps s s' -> rooms s !! r = Some room ->
  exists room', rooms s' !! r = Some room' /\ messageCount room <= messageCount room'.
Proof.
  intros Hsteps Hr.
  apply (steps_keep_room (fun x => messageCount room <= messageCount x)) with (s := s);
    try done.
  - intros t x ?. simpl. lia.
  - exists room. split; [done|lia].
Qed.

(** Along any sequence of calls a room keeps its identifier, name, host and
    creation time and its message count never goes down, and a user keeps
    its identifier and name and its count of sent messages never goes down. *)
Theorem counters_only_grow s s' :
  steps s s' ->
  (forall r room, rooms s !! r = Some room ->
     exists room', rooms s' !! r = Some room'
       /\ messageCount room <= messageCount room'
       /\ room_id room' = room_id room /\ room_name room' = room_name room
       /\ host room' = host room /\ createdAt room' = createdAt room)
  /\ (forall u user, users s !! u = Some user ->
       exists user', users s' !! u = Some user'
         /\ messagesSent user <= messagesSent user'
         /\ user_id user' = user_id user /\ user_name user' = user_name user).
Proof.
  intros Hsteps. split.
  - intros r room Hr.
    apply (steps_keep_room
             (fun x => messageCount room <= messageCount x
                       /\ room_id x = room_id room /\ room_name x = room_name room
                       /\ host x = host room /\ createdAt x = createdAt room))
      with (s := s); try done.
    + intros t x (? & ? & ? & ? & ?). simpl. repeat split; (done || lia).
    + exists room. repeat split; (done || lia).
  - intros u user Hu.
    apply (steps_keep_user
             (fun x => messagesSent user <= messagesSent x
                       /\ user_id x = user_id user /\ user_name x = user_name user))
      with (s := s); try done.
    + intros x (? & ? & ?). simpl. repeat split; (done || lia).
    + exists user. repeat split; (done || lia).
Qed.

Lemma counters_only_grow_witness :
  steps inStandup later
  /\ exists room', rooms later !! standup = Some room'
       /\ 0 <= messageCount room'
       /\ room_id room' = standup /\ room_name room' = "Daily Standup"
       /\ host room' = alice /\ createdAt room' = 3.
Proof.
  pose proof steps_later as H.
  split; [exact H|].
  refine (proj1 (counters_only_grow _ _ H) standup
            {| room_id := standup; room_name := "Daily Standup"; host := alice;
               participants := [alice; bob]; isActive := true; createdAt := 3;
               lastActivity := 4; messageCount := 0 |} _).
  vm_compute; reflexivity.
Defined.

(** Sequence numbers are never reused and never go back: of two sends to
    one room that return, the later one, however many calls lie between
    them, stores a message with a larger sequence number. *)
Theorem sequence_numbers_increase r s0 d1 u1 data1 i1 s1 id1 s2 d2 u2 data2 i2 s3 id2 :
  sendVoiceMessage d1 u1 r data1 i1 s0 = (s1, Returned id1) ->
  steps s1 s2 ->
  sendVoiceMessage d2 u2 r data2 i2 s2 = (s3, Returned id2) ->
  exists m1 m2,
    messages s1 !! id1 = Some m1 /\ messages s3 !! id2 = Some m2
    /\ roomId m1 = r /\ roomId m2 = r
    /\ sequenceNumber m1 < sequenceNumber m2.
Proof.
  intros (room0 & user0 & Hr0 & _ & _ & _ & _ & -> & ->)%send_returned Hsteps
         (room2 & user2 & Hr2 & _ & _ & _ & _ & -> & ->)%send_returned.
  destruct (steps_room_count _ _ r (room_sent (date2 d1) room0) Hsteps)
    as (room2' & Hr2' & Hcount).
  { unfold sentState. simpl. by rewrite lookup_insert_eq. }
  rewrite Hr2 in Hr2'. injection Hr2' as <-. simpl in Hcount.
  eexists _, _. unfold sentState. simpl. rewrite !lookup_insert_eq.
  do 2 (split; [done|]). simpl. do 2 (split; [done|]). lia.
Qed.

Lemma sequence_numbers_increase_witness :
  let r1 := sendVoiceMessage (draw "m1" 5) alice standup (bytes 25000) 0 inStandup in
  let r2 := sendVoiceMessage (draw "m2" 6) alice standup (bytes 10000) 0 r1.1 in
  let r3 := sendVoiceMessage (draw "m3" 7) bob standup (bytes 10000) 1 r2.1 in
  r1 = (r1.1, Returned "msg_m1")
  /\ steps r1.1 r2.1
  /\ r3 = (r3.1, Returned "msg_m3")
  /\ exists m1 m2,
       messages r1.1 !! "msg_m1" = Some m1 /\ messages r3.1 !! "msg_m3" = Some m2
       /\ roomId m1 = standup /\ roomId m2 = standup
       /\ sequenceNumber m1 < sequenceNumber m2.
Proof.
  intros r1 r2 r3.
  assert (r1 = (r1.1, Returned "msg_m1")) as H1
    by (apply pair_of; vm_compute; reflexivity).
  assert (steps r1.1 r2.1) as H2.
  { apply (steps_call r1.1 r1.1
             (SendVoiceMessage (draw "m2" 6) alice standup (bytes 10000) 0));
      [apply steps_refl | exact I]. }
  assert (r3 = (r3.1, Returned "msg_m3")) as H3
    by (apply pair_of; vm_compute; reflexivity).
  do 3 (split; [assumption|]).
  exact (sequence_numbers_increase standup inStandup (draw "m1" 5) alice (bytes 25000) 0
           r1.1 "msg_m1" r2.1 (draw "m3" 7) bob (bytes 10000) 1 r3.1 "msg_m3" H1 H2 H3).
Defined.

(** ** The totals of [getStorageInfo] *)

Lemma foldl_totals (l : list StoragePDA) : forall a b,
  Forall (fun p => capacity p = 30 * 1024 /\ 0 <= used p <= capacity p) l ->
  foldl (fun sum pda => sum + capacity pda) b l = b + 30 * 1024 * Z.of_nat (length l)
  /\ a <= foldl (fun sum pda => sum + used pda) a l
  /\ (a <= b ->
      foldl (fun sum pda => sum + used pda) a l
      <= foldl (fun sum pda => sum + capacity pda) b l).
Proof.
  induction l as [|p l IH]; intros a b Hall; simpl; [lia|].
  apply Forall_cons in Hall as [(Hc & Hu) Hall].
  destruct (IH (a + used p) (b + capacity p) Hall) as (H1 & H2 & H3).
  rewrite H1. split; [lia|]. split; [lia|]. intros Hab.
  rewrite <- H1. apply H3. lia.
Qed.

(** In every reachable state the totals [getStorageInfo] prints are sound:
    the total capacity is 30 KiB for each slot there is, and the total used
    lies between 0 and the total capacity.  The call changes nothing. *)
Theorem storage_totals s :
  reachable s ->
  getStorageInfo s = (s, Returned (totalUsed s, totalCapacity s))
  /\ totalCapacity s = 30 * 1024 * Z.of_nat (size (storage s))
  /\ 0 <= totalUsed s <= totalCapacity s.
Proof.
  intros Hreach. split; [done|].
  assert (slots_ok s) as Hok.
  { apply (steps_slots_ok newDemo s Hreach). intros j p Hj. by simpl in Hj. }
  assert (storage_ok s) as Hcap.
  { apply (steps_storage_ok newDemo s Hreach). intros j p Hj. by simpl in Hj. }
  assert (Forall (fun p => capacity p = 30 * 1024 /\ 0 <= used p <= capacity p)
            (map_to_list (storage s)).*2) as Hall.
  { apply Forall_forall. intros p ([i p'] & -> & Hin)%list_elem_of_fmap.
    apply elem_of_map_to_list in Hin. simpl.
    destruct (Hok i p' Hin) as (_ & Hc & Hu). specialize (Hcap i p' Hin). lia. }
  destruct (foldl_totals _ 0 0 Hall) as (H1 & H2 & H3).
  unfold totalUsed, totalCapacity.
  rewrite H1, length_fmap, length_map_to_list. split; [lia|]. split; [done|].
  rewrite <- (length_map_to_list (storage s)), <- (length_fmap snd).
  rewrite <- (Z.add_0_l (30 * 1024 * _)), <- H1. apply H3. lia.
Qed.

Lemma storage_totals_witness :
  reachable afterBroadcast
  /\ totalCapacity afterBroadcast = 30 * 1024 * Z.of_nat (size (storage afterBroadcast))
  /\ 0 <= totalUsed afterBroadcast <= totalCapacity afterBroadcast.
Proof.
  split; [exact reachable_afterBroadcast|].
  exact (proj2 (storage_totals afterBroadcast reachable_afterBroadcast)).
Defined.

(** ** The names of [getRoomInfo] *)

(** In a state reached through returning calls [getRoomInfo] of a room that
    exists returns it and changes nothing, and every participant it lists is
    a user: the names it prints are the users' names, one for each
    participant in order, and never the placeholder for a missing user. *)
Theorem getRoomInfo_names s r room :
  steps_ok newDemo s -> rooms s !! r = Some room ->
  getRoomInfo r s = (s, Returned room)
  /\ Forall2 (fun userId name =>
                exists user, users s !! userId = Some user /\ name = user_name user)
       (participants room) (participantNames s room).
Proof.
  intros Hsteps Hr. split; [unfold getRoomInfo; by rewrite Hr|].
  assert (consistent newDemo) as Hinit by (split; intros k x Hk; by simpl in Hk).
  destruct (steps_ok_consistent newDemo s Hsteps Hinit) as [Hps _].
  destruct (Hps r room Hr) as [_ Hmem].
  unfold participantNames. induction (participants room) as [|p ps IH]; simpl.
  - constructor.
  - constructor.
    + destruct (Hmem p) as (user & Hu & _); [left|]. rewrite Hu. by exists user.
    + apply IH. intros u Hu. apply Hmem. by right.
Qed.

Lemma getRoomInfo_names_witness :
  steps_ok newDemo inStandup
  /\ getRoomInfo standup inStandup
     = (inStandup,
        Returned {| room_id := standup; room_name := "Daily Standup"; host := alice;
                    participants := [alice; bob]; isActive := true; createdAt := 3;
                    lastActivity := 4; messageCount := 0 |}).
Proof.
  assert (steps_ok newDemo inStandup) as Hsteps
    by (apply runAll_steps_ok; vm_compute; repeat split).
  split; [exact Hsteps|].
  refine (proj1 (getRoomInfo_names inStandup standup _ Hsteps _)).
  vm_compute; reflexivity.
Defined.

(** ** Broadcast *)

(** When [broadcastVoiceMessage] throws, nothing has changed and no send
    was made: the error is [NotFound] for a missing room or user, or
    [TooManyTargets] for more than 10 targets.  No failure of a single
    target makes it throw. *)
Theorem broadcast_throw_effects s ds u r data targets s' e :
  broadcastVoiceMessage ds u r data targets s = (s', Thrown e) ->
  s' = s
  /\ ((e = NotFound /\ (rooms s !! r = None \/ users s !! u = None))
      \/ (e = TooManyTargets /\ (10 < length targets)%nat)).
Proof.
  unfold broadcastVoiceMessage. destruct (rooms s !! r) as [room|].
  2:{ intros [= <- <-]. split; [done|]. left. auto. }
  destruct (users s !! u) as [user|].
  2:{ intros [= <- <-]. split; [done|]. left. auto. }
  destruct (Z.ltb_spec 10 (Z.of_nat (length targets))).
  - intros [= <- <-]. split; [done|]. right. split; [done|lia].
  - by destruct (broadcastLoop _ _ _ _ _ _ _).
Qed.

Lemma broadcast_throw_effects_witness :
  broadcastVoiceMessage (numbered 9) alice standup (bytes 10) (replicate 11 0) inStandup
  = ((broadcastVoiceMessage (numbered 9) alice standup (bytes 10) (replicate 11 0)
        inStandup).1, Thrown TooManyTargets)
  /\ (broadcastVoiceMessage (numbered 9) alice standup (bytes 10) (replicate 11 0)
        inStandup).1 = inStandup.
Proof.
  assert (broadcastVoiceMessage (numbered 9) alice standup (bytes 10) (replicate 11 0)
            inStandup
          = ((broadcastVoiceMessage (numbered 9) alice standup (bytes 10) (replicate 11 0)
                inStandup).1, Thrown TooManyTargets)) as H
    by (apply pair_of; vm_compute; reflexivity).
  split; [exact H|].
  exact (proj1 (broadcast_throw_effects _ _ _ _ _ _ _ _ H)).
Defined.

Lemma broadcastLoop_rejected u r data s targets : forall ds ids,
  (forall d i, exists e, sendVoiceMessage d u r data i s = (s, Thrown e)) ->
  broadcastLoop ds u r data targets ids s = (s, ids).
Proof.
  induction targets as [|i rest IH]; intros ds ids Hrej; simpl; [done|].
  destruct (Hrej (ds 0%nat) i) as [e ->]. by apply IH.
Qed.

(** A broadcast by a user who is not in the room, or with a payload of more
    than 29 KiB, does not throw: every one of its sends is refused, and it
    returns the empty list and changes nothing. *)
Theorem broadcast_all_refused s ds u r data targets room user :
  rooms s !! r = Some room -> users s !! u = Some user ->
  (length targets <= 10)%nat ->
  u ∉ participants room \/ 29 * 1024 < Z.of_nat (length data) ->
  broadcastVoiceMessage ds u r data targets s = (s, Returned []).
Proof.
  intros Hr Hu Hlen Hwhy. unfold broadcastVoiceMessage. rewrite Hr, Hu.
  destruct (Z.ltb_spec 10 (Z.of_nat (length targets))); [lia|].
  rewrite broadcastLoop_rejected; [done|].
  intros d i. unfold sendVoiceMessage. rewrite Hr, Hu. unfold includes.
  case_bool_decide as Hin; simpl; [|by eexists].
  destruct Hwhy as [Hout|Hbig]; [done|].
  destruct (Z.ltb_spec (29 * 1024) (Z.of_nat (length data))); [by eexists|lia].
Qed.

Lemma broadcast_all_refused_witness :
  rooms (createUser (draw "b" 2) "Bob" opened).1 !! standup = Some openedStandup
  /\ users (createUser (draw "b" 2) "Bob" opened).1 !! bob
     = Some {| user_id := bob; user_name := "Bob"; joinedRooms := []; messagesSent := 0 |}
  /\ (length [0; 1; 2] <= 10)%nat
  /\ (bob ∉ participants openedStandup)
  /\ broadcastVoiceMessage (numbered 9) bob standup (bytes 10) [0; 1; 2]
       (createUser (draw "b" 2) "Bob" opened).1
     = ((createUser (draw "b" 2) "Bob" opened).1, Returned []).
Proof.
  assert (rooms (createUser (draw "b" 2) "Bob" opened).1 !! standup = Some openedStandup)
    as Hr by (vm_compute; reflexivity).
  assert (users (createUser (draw "b" 2) "Bob" opened).1 !! bob
          = Some {| user_id := bob; user_name := "Bob"; joinedRooms := [];
                    messagesSent := 0 |}) as Hu by (vm_compute; reflexivity).
  assert ((length [0; 1; 2] <= 10)%nat) as Hlen by (simpl; lia).
  assert (bob ∉ participants openedStandup) as Hout
    by (apply (bool_decide_unpack _); vm_compute; exact I).
  do 4 (split; [assumption|]).
  exact (broadcast_all_refused _ (numbered 9) bob standup (bytes 10) [0; 1; 2] _ _
           Hr Hu Hlen (or_introl Hout)).
Defined.

Lemma broadcastLoop_counts u r data targets : forall ds ids s room user,
  rooms s !! r = Some room -> users s !! u = Some user ->
  u ∈ participants room -> Z.of_nat (length data) <= 29 * 1024 ->
  exists room' user',
    rooms (broadcastLoop ds u r data targets ids s).1 !! r = Some room'
    /\ users (broadcastLoop ds u r data targets ids s).1 !! u = Some user'
    /\ messageCount room' = messageCount room + Z.of_nat (length targets)
    /\ messagesSent user' = messagesSent user + Z.of_nat (length targets)
    /\ participants room' = participants room.
Proof.
  induction targets as [|i rest IH]; intros ds ids s room user Hr Hu Hin Hlen; simpl.
  - exists room, user. repeat split; (done || lia).
  - destruct (send_member s (ds 0%nat) u r data i room user Hr Hu Hin Hlen)
      as (Hr1 & Hu1 & _).
    destruct (sendVoiceMessage (ds 0%nat) u r data i s) as [s1 o]. simpl in *.
    destruct (IH (fun k => ds (S k))
                (match o with Returned id => ids ++ [id] | Thrown _ => ids end)
                s1 _ _ Hr1 Hu1 Hin Hlen) as (room' & user' & H1 & H2 & H3 & H4 & H5).
    exists room', user'. simpl in *. repeat split; (done || lia).
Qed.

(** A broadcast by a participant with a payload within 29 KiB counts every
    target, accepted by its slot or not: the room's message count and the
    sender's count of sent messages both go up by the number of targets. *)
Theorem broadcast_counts_every_target s ds u r data targets room user :
  rooms s !! r = Some room -> users s !! u = Some user ->
  u ∈ participants room -> Z.of_nat (length data) <= 29 * 1024 ->
  (length targets <= 10)%nat ->
  let res := broadcastVoiceMessage ds u r data targets s in
  exists room' user',
    rooms res.1 !! r = Some room' /\ users res.1 !! u = Some user'
    /\ messageCount room' = messageCount room + Z.of_nat (length targets)
    /\ messagesSent user' = messagesSent user + Z.of_nat (length targets)
    /\ participants room' = participants room.
Proof.
  intros Hr Hu Hin Hlen Hten res. subst res. unfold broadcastVoiceMessage.
  rewrite Hr, Hu. destruct (Z.ltb_spec 10 (Z.of_nat (length targets))); [lia|].
  pose proof (broadcastLoop_counts u r data targets ds [] s room user Hr Hu Hin Hlen) as H'.
  by destruct (broadcastLoop ds u r data targets [] s).
Qed.

Lemma broadcast_counts_every_target_witness :
  rooms slotOneBusy !! standup = Some busyStandup
  /\ users slotOneBusy !! alice = Some busyAlice
  /\ alice ∈ participants busyStandup
  /\ Z.of_nat (length (bytes 10000)) <= 29 * 1024
  /\ (length [0; 1; 2] <= 10)%nat
  /\ exists room' user',
       rooms (broadcastVoiceMessage (numbered 9) alice standup (bytes 10000) [0; 1; 2]
                slotOneBusy).1 !! standup = Some room'
       /\ users (broadcastVoiceMessage (numbered 9) alice standup (bytes 10000) [0; 1; 2]
                   slotOneBusy).1 !! alice = Some user'
       /\ messageCount room' = messageCount busyStandup + Z.of_nat (length [0; 1; 2])
       /\ messagesSent user' = messagesSent busyAlice + Z.of_nat (length [0; 1; 2])
       /\ participants room' = participants busyStandup.
Proof.
  assert (rooms slotOneBusy !! standup = Some busyStandup) as Hr
    by (vm_compute; reflexivity).
  assert (users slotOneBusy !! alice = Some busyAlice) as Hu
    by (vm_compute; reflexivity).
  assert (alice ∈ participants busyStandup) as Hin by (simpl; left).
  assert (Z.of_nat (length (bytes 10000)) <= 29 * 1024) as Hlen
    by (apply Z.leb_le; vm_compute; reflexivity).
  assert ((length [0; 1; 2] <= 10)%nat) as Hten by (simpl; lia).
  do 5 (split; [assumption|]).
  exact (broadcast_counts_every_target slotOneBusy (numbered 9) alice standup
           (bytes 10000) [0; 1; 2] _ _ Hr Hu Hin Hlen Hten).
Defined.

(** ** Rooms and their members *)

Lemma steps_active_occupied s s' :
  steps s s' ->
  (forall r room, rooms s !! r = Some room ->
     (isActive room = false <-> participants room = [])) ->
  forall r room, rooms s' !! r = Some room ->
    (isActive room = false <-> participants room = []).
Proof.
  apply (steps_keep (fun st => forall r room, rooms st !! r = Some room ->
                        (isActive room = false <-> participants room = []))).
  - intros d u r0 data i s0 Hs.
    destruct (send_rooms d u r0 data i s0) as [->|(room0 & Hr0 & ->)]; [done|].
    intros r room. rewrite lookup_insert. case_decide; [|by apply Hs].
    intros [= <-]. simpl. by apply (Hs r0).
  - intros d n s0 _ Hs. exact Hs.
  - intros d h n s0 _ Hs. rewrite createRoom_rooms.
    intros r room. rewrite lookup_insert. case_decide; [|by apply Hs].
    intros [= <-]. simpl. done.
  - intros d u r0 s0 Hs.
    destruct (joinRoom_rooms d u r0 s0) as [->|(room0 & Hr0 & Hact & _ & _ & ->)]; [done|].
    intros r room. rewrite lookup_insert. case_decide; [|by apply Hs].
    intros [= <-]. simpl. rewrite Hact. split; [done|].
    by intros []%app_eq_nil.
  - intros d u r0 s0 Hs.
    destruct (leaveRoom_rooms d u r0 s0) as [->|(room0 & k & Hr0 & Hk & ->)]; [done|].
    intros r room. rewrite lookup_insert. case_decide; [|by apply Hs].
    intros [= <-]. simpl. unfold splice1.
    destruct (delete k (participants room0)) as [|p ps] eqn:Hdel; simpl; [done|].
    split; [|done]. intros Hoff. apply (Hs r0 room0 Hr0) in Hoff.
    rewrite Hoff in Hdel. by destruct k.
Qed.

(** In every reachable state a room is active exactly when it has
    participants. *)
Theorem active_iff_occupied s r room :
  reachable s -> rooms s !! r = Some room ->
  (isActive room = true <-> participants room <> []).
Proof.
  intros Hreach Hr.
  pose proof (steps_active_occupied newDemo s Hreach) as H.
  destruct (H (fun k x Hk => ltac:(by simpl in Hk)) r room Hr) as [H1 H2].
  destruct (isActive room).
  - split; [|done]. intros _ Hnil. by specialize (H2 Hnil).
  - split; [done|]. intros Hne. by destruct (Hne (H1 eq_refl)).
Qed.

Lemma active_iff_occupied_witness :
  reachable emptied /\ rooms emptied !! standup = Some emptiedStandup
  /\ (isActive emptiedStandup = true <-> participants emptiedStandup <> []).
Proof.
  assert (rooms emptied !! standup = Some emptiedStandup) as Hr
    by (vm_compute; reflexivity).
  split; [exact reachable_emptied|]. split; [exact Hr|].
  exact (active_iff_occupied emptied standup emptiedStandup reachable_emptied Hr).
Defined.

(** In a state reached through returning calls nobody is listed twice:
    a room's participants are pairwise different, and so are a user's
    rooms. *)
Theorem no_double_membership s :
  steps_ok newDemo s ->
  (forall r room, rooms s !! r = Some room -> NoDup (participants room))
  /\ (forall u user, users s !! u = Some user -> NoDup (joinedRooms user)).
Proof.
  intros Hsteps.
  assert (consistent newDemo) as Hinit by (split; intros k x Hk; by simpl in Hk).
  destruct (steps_ok_consistent newDemo s Hsteps Hinit) as [Hps Hjs]. split.
  - intros r room Hr. by destruct (Hps r room Hr).
  - intros u user Hu. by destruct (Hjs u user Hu).
Qed.

Lemma no_double_membership_witness :
  steps_ok newDemo inStandup
  /\ (forall r room, rooms inStandup !! r = Some room -> NoDup (participants room)).
Proof.
  assert (steps_ok newDemo inStandup) as Hsteps
    by (apply runAll_steps_ok; vm_compute; repeat split).
  split; [exact Hsteps|].
  exact (proj1 (no_double_membership inStandup Hsteps)).
Defined.

(** ** The performance test *)

Lemma bind_returned {A B} (m : Demo -> Demo * outcome error A)
    (k : A -> Demo -> Demo * outcome error B) s s1 a :
  m s = (s1, Returned a) -> bind m k s = k a s1.
Proof. unfold bind. by intros ->. Qed.

Lemma bind_thrown {A B} (m : Demo -> Demo * outcome error A)
    (k : A -> Demo -> Demo * outcome error B) s s1 e :
  m s = (s1, Thrown e) -> bind m k s = (s1, Thrown e).
Proof. unfold bind. by intros ->. Qed.

Lemma sentState_usage d u r data i room user s j :
  usedOf (sentState d u r data i room user s) j
  = usedOf s j + (if decide (j = i) then Z.of_nat (length data) else 0)
  /\ capOf (sentState d u r data i room user s) j = capOf s j.
Proof.
  unfold usedOf, capOf, sentState, sentSlot. simpl. rewrite lookup_insert.
  destruct (decide (j = i)) as [->|Hne].
  - rewrite decide_True by done. by destruct (storage s !! i).
  - rewrite decide_False by done. split; [lia|done].
Qed.

Lemma share_step n i j :
  share (S n) i j = (if decide (Z.of_nat i mod 3 = j) then 1 else 0) + share n (S i) j.
Proof.
  unfold share. simpl. rewrite filter_cons. case_decide; simpl; lia.
Qed.

Lemma share_nonneg n i j : 0 <= share n i j.
Proof. unfold share. lia. Qed.

Lemma share_slot n : forall i j, 0 < share n i j -> 0 <= j < 3.
Proof.
  induction n as [|n IH]; intros i j; [unfold share; simpl; lia|].
  rewrite share_step. case_decide as Hj; [|intros H; apply (IH (S i)); lia].
  intros _. subst j. apply Z.mod_pos_bound. lia.
Qed.

Lemma createRoom_known s d h n user :
  users s !! h = Some user ->
  createRoom d h n s
  = ({| rooms := <[roomIdOf d := {| room_id := roomIdOf d; room_name := n; host := h;
                                    participants := [h]; isActive := true;
                                    createdAt := date1 d; lastActivity := date2 d;
                                    messageCount := 0 |}]> (rooms s);
        messages := messages s; storage := storage s;
        users := <[h := user_joined (roomIdOf d) user]> (users s) |},
     Returned (roomIdOf d)).
Proof. intros Hh. unfold createRoom. simpl. by rewrite Hh. Qed.

(** The loop of the performance test, started anywhere: either every send
    returns, and then each slot had room for 1000 bytes for each iteration
    that targets it and has grown by as much; or a send throws [SlotFull]
    for a slot that had no room for that. *)
Lemma perfLoop_outcome env rnd u r n : forall i s room user,
  rooms s !! r = Some room -> users s !! u = Some user -> u ∈ participants room ->
  let res := perfLoop env rnd u r n i s in
  (res.2 = Returned tt
   /\ (forall j, 0 < share n i j -> usedOf s j + 1000 * share n i j <= capOf s j)
   /\ (forall j, usedOf res.1 j = usedOf s j + 1000 * share n i j))
  \/ (exists j, res.2 = Thrown (SlotFull j) /\ 0 < share n i j
                /\ ~ usedOf s j + 1000 * share n i j <= capOf s j).
Proof.
  induction n as [|n IH]; intros i s room user Hr Hu Hin; simpl.
  - left. split; [done|]. split; intros j; unfold share; simpl; lia.
  - set (data := generateVoiceData (rnd i) (Z.to_nat 1000)).
    assert (Z.of_nat (length data) = 1000) as Hlen.
    { unfold data, generateVoiceData. rewrite length_map, length_seq. lia. }
    assert (fits s (Z.of_nat i mod 3) 1000 \/ ~ fits s (Z.of_nat i mod 3) 1000)
      as [Hfit|Hnofit] by (rewrite fits_spec; lia).
    + rewrite (send_succeeds s _ u r data _ room user Hr Hu Hin); [|lia|by rewrite Hlen].
      set (s1 := sentState _ u r data _ room user s).
      assert (forall j, usedOf s1 j
                        = usedOf s j + (if decide (j = Z.of_nat i mod 3) then 1000 else 0)
                        /\ capOf s1 j = capOf s j) as Hs1.
      { intros j. unfold s1. rewrite <- Hlen. apply sentState_usage. }
      destruct (IH (S i) s1 (room_sent (date2 (env (2 + i)%nat)) room) (user_sent user))
        as [(Hret & Hroom & Hused)|(j & Hthrown & Hpos & Hfull)].
      * unfold s1, sentState. simpl. by rewrite lookup_insert_eq.
      * unfold s1, sentState. simpl. by rewrite lookup_insert_eq.
      * done.
      * left. split; [done|]. apply fits_spec in Hfit. split.
        -- intros j. rewrite share_step. intros Hpos.
           destruct (Hs1 j) as [Hu1 Hc1]. pose proof (share_nonneg n (S i) j).
           destruct (decide (0 < share n (S i) j)) as [Hlater|Hnone].
           ++ specialize (Hroom j Hlater). rewrite Hu1, Hc1 in Hroom.
              repeat case_decide; lia.
           ++ repeat case_decide; subst; lia.
        -- intros j. rewrite Hused, share_step. destruct (Hs1 j) as [-> _].
           repeat case_decide; lia.
      * right. exists j. split; [done|]. rewrite share_step.
        destruct (Hs1 j) as [Hu1 Hc1]. rewrite Hu1, Hc1 in Hfull.
        split; repeat case_decide; lia.
    + destruct (send_member s (env (2 + i)%nat) u r data (Z.of_nat i mod 3) room user
                  Hr Hu Hin ltac:(lia)) as (_ & _ & _ & [(Hfit & _)|(_ & Hthrown & _)]).
      { by rewrite Hlen in Hfit. }
      destruct (sendVoiceMessage _ u r data _ s) as [s1 o]. simpl in Hthrown. subst o.
      right. exists (Z.of_nat i mod 3). split; [done|]. rewrite share_step.
      rewrite decide_True by done. pose proof (share_nonneg n (S i) (Z.of_nat i mod 3)).
      split; [lia|]. rewrite fits_spec in Hnofit. nia.
Qed.

Lemma performanceTest_run env rnd s :
  let res := performanceTest env rnd s in
  (res.2 = Returned tt
   /\ (forall j, 0 < share 20 0 j -> usedOf s j + 1000 * share 20 0 j <= capOf s j)
   /\ (forall j, usedOf res.1 j = usedOf s j + 1000 * share 20 0 j))
  \/ (exists j, res.2 = Thrown (SlotFull j) /\ 0 < share 20 0 j
                /\ ~ usedOf s j + 1000 * share 20 0 j <= capOf s j).
Proof.
  intros res. subst res. unfold performanceTest.
  rewrite (bind_returned _ _ s (createUser (env 0%nat) "TestUser" s).1
             (userIdOf (env 0%nat))) by done.
  set (s1 := (createUser (env 0%nat) "TestUser" s).1).
  set (u := userIdOf (env 0%nat)).
  assert (exists user, users s1 !! u = Some user) as [user Hu].
  { eexists. unfold s1, createUser. simpl. by rewrite lookup_insert_eq. }
  rewrite (bind_returned _ _ _ _ _
             (createRoom_known s1 (env 1%nat) u "Performance Test Room" user Hu)).
  set (r := roomIdOf (env 1%nat)).
  match goal with |- context [perfLoop env rnd u r 20 0 ?st] => set (s2 := st) end.
  assert (exists room user', rooms s2 !! r = Some room /\ users s2 !! u = Some user'
                             /\ u ∈ participants room) as (room & user' & Hr & Hu' & Hin).
  { eexists _, _. unfold s2. simpl. rewrite !lookup_insert_eq.
    split; [done|]. split; [done|]. simpl. left. }
  exact (perfLoop_outcome env rnd u r 20 0 s2 room user' Hr Hu' Hin).
Qed.

Lemma share_twenty : share 20 0 0 = 7 /\ share 20 0 1 = 7 /\ share 20 0 2 = 6.
Proof. split; [|split]; reflexivity. Qed.

(** [performanceTest] on any state: it returns exactly when slot 0 has 7000
    bytes free, slot 1 has 7000 and slot 2 has 6000, counting a slot that
    does not exist yet as empty; otherwise it throws [SlotFull] for one of
    the three slots that has not.  When it returns the three slots have
    grown by that much. *)
Theorem performanceTest_outcome env rnd s :
  let res := performanceTest env rnd s in
  (res.2 = Returned tt
   <-> usedOf s 0 + 7000 <= capOf s 0 /\ usedOf s 1 + 7000 <= capOf s 1
       /\ usedOf s 2 + 6000 <= capOf s 2)
  /\ (res.2 = Returned tt ->
      usedOf res.1 0 = usedOf s 0 + 7000 /\ usedOf res.1 1 = usedOf s 1 + 7000
      /\ usedOf res.1 2 = usedOf s 2 + 6000)
  /\ (res.2 = Returned tt
      \/ (res.2 = Thrown (SlotFull 0) /\ ~ usedOf s 0 + 7000 <= capOf s 0)
      \/ (res.2 = Thrown (SlotFull 1) /\ ~ usedOf s 1 + 7000 <= capOf s 1)
      \/ (res.2 = Thrown (SlotFull 2) /\ ~ usedOf s 2 + 6000 <= capOf s 2)).
Proof.
  intros res. destruct share_twenty as (E0 & E1 & E2). subst res.
  destruct (performanceTest_run env rnd s)
    as [(Hret & Hroom & Hused)|(j & Hthrown & Hpos & Hfull)].
  - pose proof (Hroom 0) as R0. pose proof (Hroom 1) as R1. pose proof (Hroom 2) as R2.
    pose proof (Hused 0) as U0. pose proof (Hused 1) as U1. pose proof (Hused 2) as U2.
    rewrite E0 in *. rewrite E1 in *. rewrite E2 in *.
    split; [split; [intros _; lia | done]|]. split; [intros _; lia|]. by left.
  - pose proof (share_slot 20 0 j Hpos) as Hj.
    assert (j = 0 \/ j = 1 \/ j = 2) as [-> | [-> | ->]] by lia.
    + rewrite E0 in Hfull. split; [split; [by rewrite Hthrown | lia]|].
      split; [by rewrite Hthrown|]. right. left. split; [done|lia].
    + rewrite E1 in Hfull. split; [split; [by rewrite Hthrown | lia]|].
      split; [by rewrite Hthrown|]. right. right. left. split; [done|lia].
    + rewrite E2 in Hfull. split; [split; [by rewrite Hthrown | lia]|].
      split; [by rewrite Hthrown|]. right. right. right. split; [done|lia].
Qed.

(** ** The demo *)

Lemma send_messages_ok d u r data i s :
  messages_ok s -> messages_ok (sendVoiceMessage d u r data i s).1.
Proof.
  intros Hok id m Hm.
  destruct (send_extends d u r data i s) as (Hu & Hr & _).
  destruct (send_messages _ _ _ _ _ _ _ _ Hm) as [Hold|(-> & -> & Hsu & Hsr)].
  - destruct (Hok id m Hold). split; auto.
  - split; auto.
Qed.

Lemma demoAt_frame s s' r ps act ps' act' us a b c :
  demoAt s r ps act us a b c ->
  extends s s' -> storage s' = storage s -> messages s' = messages s ->
  roomHas s' r ps' act' ->
  demoAt s' r ps' act' us a b c.
Proof.
  intros (_ & Hus & Hmsg & H0 & H1 & H2) Hext Hstor Hmess Hroom.
  split; [done|]. split.
  { eapply Forall_impl; [exact Hus|]. intros u. apply Hext. }
  split; [by apply (messages_ok_extends s)|].
  unfold usedOf, capOf in *. by rewrite Hstor.
Qed.

Lemma demoAt_user s r ps act us a b c u :
  demoAt s r ps act us a b c -> u ∈ us -> exists user, users s !! u = Some user.
Proof.
  intros (_ & Hus & _) Hin. rewrite Forall_forall in Hus. exact (Hus u Hin).
Qed.

Lemma demo_join s d r ps us a b c u :
  demoAt s r ps true us a b c -> u ∈ us -> u ∉ ps -> (length ps < 10)%nat ->
  exists s', joinRoom d u r s = (s', Returned tt)
             /\ demoAt s' r (ps ++ [u]) true us a b c /\ extends s s'.
Proof.
  intros Hat Hin Hnew Hlen. destruct (demoAt_user _ _ _ _ _ _ _ _ u Hat Hin) as [user Hu].
  pose proof Hat as ((room & Hr & <- & Hact) & _).
  pose proof (joinRoom_extends d u r s) as Hext.
  pose proof (joinRoom_storage d u r s) as Hstor.
  pose proof (joinRoom_messages d u r s) as Hmess.
  assert (joinRoom d u r s
          = ({| rooms := <[r := room_joined u (date1 d) room]> (rooms s);
                messages := messages s; storage := storage s;
                users := <[u := user_joined r user]> (users s) |}, Returned tt)) as Heq.
  { unfold joinRoom. rewrite Hr, Hact. simpl. unfold includes.
    rewrite bool_decide_eq_false_2 by done.
    destruct (Z.leb_spec 10 (Z.of_nat (length (participants room)))); [lia|].
    by rewrite Hu. }
  rewrite Heq in Hext, Hstor, Hmess. eexists. split; [exact Heq|]. split; [|done].
  apply (demoAt_frame s _ r (participants room) true); try done.
  eexists. simpl. rewrite lookup_insert_eq. done.
Qed.

Lemma demo_leave s d r ps act us a b c u k :
  demoAt s r ps act us a b c -> u ∈ us -> indexOf u ps = Some k ->
  exists s', leaveRoom d u r s = (s', Returned tt)
             /\ demoAt s' r (splice1 k ps)
                  (if decide (length (splice1 k ps) = 0%nat) then false else act) us a b c
             /\ extends s s'.
Proof.
  intros Hat Hin Hk. destruct (demoAt_user _ _ _ _ _ _ _ _ u Hat Hin) as [user Hu].
  pose proof Hat as ((room & Hr & <- & <-) & _).
  pose proof (leaveRoom_extends d u r s) as Hext.
  pose proof (leaveRoom_storage d u r s) as Hstor.
  pose proof (leaveRoom_messages d u r s) as Hmess.
  assert (leaveRoom d u r s
          = ({| rooms := <[r := room_left k (date1 d) room]> (rooms s);
                messages := messages s; storage := storage s;
                users := <[u := user_left r user]> (users s) |}, Returned tt)) as Heq.
  { unfold leaveRoom. by rewrite Hr, Hu, Hk. }
  rewrite Heq in Hext, Hstor, Hmess. eexists. split; [exact Heq|]. split; [|done].
  apply (demoAt_frame s _ r (participants room) (isActive room)); try done.
  eexists. simpl. rewrite lookup_insert_eq. done.
Qed.

Lemma demo_send s d r ps act us a b c u data i n :
  demoAt s r ps act us a b c -> u ∈ us -> u ∈ ps ->
  Z.of_nat (length data) = n -> n <= 29 * 1024 ->
  (i = 0 /\ a + n <= 30 * 1024) \/ (i = 1 /\ b + n <= 30 * 1024)
  \/ (i = 2 /\ c + n <= 30 * 1024) ->
  exists s', sendVoiceMessage d u r data i s = (s', Returned (messageIdOf d))
             /\ demoAt s' r ps act us
                  (a + if decide (i = 0) then n else 0)
                  (b + if decide (i = 1) then n else 0)
                  (c + if decide (i = 2) then n else 0)
             /\ extends s s' /\ is_Some (messages s' !! messageIdOf d).
Proof.
  intros Hat Hin Hmem Hlen Hn Hroom.
  destruct (demoAt_user _ _ _ _ _ _ _ _ u Hat Hin) as [user Hu].
  pose proof Hat as ((room & Hr & <- & <-) & Hus & Hmsg & [U0 C0] & [U1 C1] & [U2 C2]).
  assert (fits s i (Z.of_nat (length data))) as Hfit.
  { apply fits_spec. rewrite Hlen. destruct Hroom as [[-> ?]|[[-> ?]|[-> ?]]]; lia. }
  pose proof (send_extends d u r data i s) as Hext.
  pose proof (send_messages_ok d u r data i s Hmsg) as Hmsg'.
  pose proof (send_succeeds s d u r data i room user Hr Hu Hmem ltac:(lia) Hfit) as Heq.
  rewrite Heq in Hext, Hmsg'. simpl in Hext, Hmsg'.
  eexists. split; [exact Heq|]. split; [|split; [done|]].
  - split; [eexists; simpl; rewrite lookup_insert_eq; done|]. split.
    { eapply Forall_impl; [exact Hus|]. intros v. apply Hext. }
    split; [done|].
    destruct (sentState_usage d u r data i room user s 0) as [-> ->].
    destruct (sentState_usage d u r data i room user s 1) as [-> ->].
    destruct (sentState_usage d u r data i room user s 2) as [-> ->].
    rewrite Hlen, U0, U1, U2.
    repeat split; try done; repeat case_decide; (congruence || lia).
  - simpl. rewrite lookup_insert_eq. by eexists.
Qed.

Lemma demo_broadcast s ds r ps act us a b c u data n :
  demoAt s r ps act us a b c -> u ∈ us -> u ∈ ps ->
  Z.of_nat (length data) = n -> n <= 29 * 1024 ->
  a + n <= 30 * 1024 -> b + n <= 30 * 1024 -> c + n <= 30 * 1024 ->
  exists s' ids, broadcastVoiceMessage ds u r data [0; 1; 2] s = (s', Returned ids)
                 /\ demoAt s' r ps act us (a + n) (b + n) (c + n) /\ extends s s'.
Proof.
  intros Hat Hin Hmem Hlen Hn Ha Hb Hc.
  destruct (demoAt_user _ _ _ _ _ _ _ _ u Hat Hin) as [user Hu].
  pose proof Hat as ((room & Hr & _) & _).
  unfold broadcastVoiceMessage. rewrite Hr, Hu. simpl.
  destruct (demo_send s (ds 0%nat) r ps act us a b c u data 0 n Hat Hin Hmem Hlen Hn)
    as (s1 & -> & Hat1 & Hext1 & _); [left; done|].
  simpl in Hat1. rewrite !Z.add_0_r in Hat1.
  destruct (demo_send s1 (ds 1%nat) r ps act us _ _ _ u data 1 n Hat1 Hin Hmem Hlen Hn)
    as (s2 & -> & Hat2 & Hext2 & _); [right; left; done|].
  simpl in Hat2. rewrite !Z.add_0_r in Hat2.
  destruct (demo_send s2 (ds 2%nat) r ps act us _ _ _ u data 2 n Hat2 Hin Hmem Hlen Hn)
    as (s3 & -> & Hat3 & Hext3 & _); [right; right; done|].
  simpl in Hat3. rewrite !Z.add_0_r in Hat3.
  eexists _, _. split; [done|]. split; [done|].
  eauto using extends_trans.
Qed.

Lemma demo_get s r ps act us a b c id :
  demoAt s r ps act us a b c -> is_Some (messages s !! id) ->
  exists m, getVoiceMessage id s = (s, Returned m).
Proof.
  intros (_ & _ & Hmsg & _) [m Hm]. exists m. unfold getVoiceMessage. rewrite Hm.
  destruct (Hmsg id m Hm) as [[user ->] [room ->]]. done.
Qed.

Lemma demo_roomInfo s r ps act us a b c :
  demoAt s r ps act us a b c -> exists room, getRoomInfo r s = (s, Returned room).
Proof.
  intros ((room & Hr & _) & _). exists room. unfold getRoomInfo. by rewrite Hr.
Qed.

Lemma length_generated rnd n :
  Z.of_nat (length (generateVoiceData rnd (Z.to_nat n))) = Z.max 0 n.
Proof. unfold generateVoiceData. rewrite length_map, length_seq. lia. Qed.

Ltac next Heq := rewrite (bind_returned _ _ _ _ _ Heq); cbv beta zeta.
Ltac isin := rewrite ?elem_of_cons; auto 10.
Ltac notin :=
  rewrite ?not_elem_of_cons; repeat split; (congruence || apply not_elem_of_nil).

Lemma runDemoBody_run env rnd :
  userIdOf (env 0%nat) <> userIdOf (env 1%nat) ->
  userIdOf (env 0%nat) <> userIdOf (env 2%nat) ->
  userIdOf (env 1%nat) <> userIdOf (env 2%nat) ->
  exists s',
    runDemoBody env rnd newDemo = (s', Returned tt)
    /\ demoAt s' (roomIdOf (env 3%nat)) [] false
         [userIdOf (env 0%nat); userIdOf (env 1%nat); userIdOf (env 2%nat)]
         20000 23000 27000.
Proof.
  intros Hab Hac Hbc. unfold runDemoBody.
  set (A := userIdOf (env 0%nat)) in *. set (B := userIdOf (env 1%nat)) in *.
  set (C := userIdOf (env 2%nat)) in *. set (r := roomIdOf (env 3%nat)).
  (* the three users and the room *)
  rewrite (bind_returned _ _ newDemo (createUser (env 0%nat) "Alice" newDemo).1 A) by done.
  cbv beta.
  set (s1 := (createUser (env 0%nat) "Alice" newDemo).1).
  rewrite (bind_returned _ _ s1 (createUser (env 1%nat) "Bob" s1).1 B) by done.
  cbv beta.
  set (s2 := (createUser (env 1%nat) "Bob" s1).1).
  rewrite (bind_returned _ _ s2 (createUser (env 2%nat) "Charlie" s2).1 C) by done.
  cbv beta.
  set (s3 := (createUser (env 2%nat) "Charlie" s2).1).
  assert (exists ua, users s3 !! A = Some ua) as [ua Hua].
  { eexists. unfold s3, s2, s1, createUser. simpl. fold A B C.
    rewrite lookup_insert_ne by congruence. rewrite lookup_insert_ne by congruence.
    by rewrite lookup_insert_eq. }
  rewrite (bind_returned _ _ _ _ _ (createRoom_known s3 (env 3%nat) A "Daily Standup" ua Hua)).
  cbv beta. fold r.
  match goal with |- context [bind (joinRoom _ B r) _ ?st] => set (s4 := st) end.
  assert (demoAt s4 r [A] true [A; B; C] 0 0 0) as Hat4.
  { split; [eexists; unfold s4; simpl; rewrite lookup_insert_eq; done|]. split.
    { unfold s4, s3, s2, s1, createUser. simpl. fold A B C.
      repeat constructor; unfold registered; simpl.
      - rewrite lookup_insert_eq. by eexists.
      - apply is_Some_insert, is_Some_insert. rewrite lookup_insert_eq. by eexists.
      - apply is_Some_insert. rewrite lookup_insert_eq. by eexists. }
    split; [intros id m Hm; by simpl in Hm|]. done. }
  (* Bob and Charlie join *)
  destruct (demo_join s4 (env 4%nat) r [A] [A; B; C] 0 0 0 B Hat4)
    as (s5 & Heq5 & Hat5 & _); [isin|notin|simpl; lia|].
  next Heq5. simpl in Hat5.
  destruct (demo_join s5 (env 5%nat) r _ [A; B; C] 0 0 0 C Hat5)
    as (s6 & Heq6 & Hat6 & _); [isin|notin|simpl; lia|].
  next Heq6. simpl in Hat6.
  destruct (demo_roomInfo _ _ _ _ _ _ _ _ Hat6) as [room6 Hinfo6]. next Hinfo6.
  (* the three messages *)
  destruct (demo_send s6 (env 6%nat) r _ true _ 0 0 0 A
              (generateVoiceData (rnd 0%nat) (Z.to_nat 5000)) 0 5000 Hat6)
    as (s7 & Heq7 & Hat7 & _ & Hm1);
    [isin|isin|by rewrite length_generated|lia|left; lia|].
  next Heq7. simpl in Hat7.
  destruct (demo_send s7 (env 7%nat) r _ true _ _ _ _ B
              (generateVoiceData (rnd 1%nat) (Z.to_nat 8000)) 1 8000 Hat7)
    as (s8 & Heq8 & Hat8 & Hext8 & Hm2);
    [isin|isin|by rewrite length_generated|lia|right; left; lia|].
  next Heq8. simpl in Hat8.
  destruct (demo_send s8 (env 8%nat) r _ true _ _ _ _ C
              (generateVoiceData (rnd 2%nat) (Z.to_nat 12000)) 2 12000 Hat8)
    as (s9 & Heq9 & Hat9 & Hext9 & Hm3);
    [isin|isin|by rewrite length_generated|lia|right; right; lia|].
  next Heq9. simpl in Hat9.
  (* the broadcast *)
  destruct (demo_broadcast s9 (fun i => env (9 + i)%nat) r _ true _ _ _ _ A
              (generateVoiceData (rnd 3%nat) (Z.to_nat 15000)) 15000 Hat9)
    as (s10 & ids & Heq10 & Hat10 & Hext10);
    [isin|isin|by rewrite length_generated|lia|lia|lia|lia|].
  next Heq10. simpl in Hat10.
  (* reading the three messages back *)
  assert (is_Some (messages s10 !! messageIdOf (env 6%nat))) as Hg1.
  { apply Hext10, Hext9, Hext8, Hm1. }
  assert (is_Some (messages s10 !! messageIdOf (env 7%nat))) as Hg2.
  { apply Hext10, Hext9, Hm2. }
  assert (is_Some (messages s10 !! messageIdOf (env 8%nat))) as Hg3.
  { apply Hext10, Hm3. }
  destruct (demo_get _ _ _ _ _ _ _ _ _ Hat10 Hg1) as [m1 Hget1]. next Hget1.
  destruct (demo_get _ _ _ _ _ _ _ _ _ Hat10 Hg2) as [m2 Hget2]. next Hget2.
  destruct (demo_get _ _ _ _ _ _ _ _ _ Hat10 Hg3) as [m3 Hget3]. next Hget3.
  rewrite (bind_returned getStorageInfo _ s10 s10 (totalUsed s10, totalCapacity s10))
    by done.
  cbv beta.
  (* everybody leaves *)
  assert (indexOf C [A; B; C] = Some 2%nat) as Hic.
  { simpl. rewrite !decide_False by congruence. by rewrite decide_True. }
  destruct (demo_leave s10 (env 12%nat) r _ true _ _ _ _ C 2 Hat10)
    as (s11 & Heq11 & Hat11 & _); [isin|exact Hic|].
  next Heq11. simpl in Hat11.
  assert (indexOf B [A; B] = Some 1%nat) as Hib.
  { simpl. rewrite !decide_False by congruence. by rewrite decide_True. }
  destruct (demo_leave s11 (env 13%nat) r _ true _ _ _ _ B 1 Hat11)
    as (s12 & Heq12 & Hat12 & _); [isin|exact Hib|].
  next Heq12. simpl in Hat12.
  assert (indexOf A [A] = Some 0%nat) as Hia by (simpl; by rewrite decide_True).
  destruct (demo_leave s12 (env 14%nat) r _ true _ _ _ _ A 0 Hat12)
    as (s13 & Heq13 & Hat13 & _); [isin|exact Hia|].
  next Heq13. simpl in Hat13.
  destruct (demo_roomInfo _ _ _ _ _ _ _ _ Hat13) as [room13 Hinfo13]. next Hinfo13.
  exists s13. split; [done|]. exact Hat13.
Qed.

(** From a new demo, when the three users are given different identifiers,
    [runDemo] meets no error: it returns with nothing caught, the room empty
    and deactivated, the three users still registered, and 20000, 23000 and
    27000 bytes used in slots 0, 1 and 2. *)
Theorem runDemo_completes env rnd :
  userIdOf (env 0%nat) <> userIdOf (env 1%nat) ->
  userIdOf (env 0%nat) <> userIdOf (env 2%nat) ->
  userIdOf (env 1%nat) <> userIdOf (env 2%nat) ->
  let res := runDemo env rnd newDemo in
  res.2 = None
  /\ roomHas res.1 (roomIdOf (env 3%nat)) [] false
  /\ Forall (registered res.1)
       [userIdOf (env 0%nat); userIdOf (env 1%nat); userIdOf (env 2%nat)]
  /\ usedOf res.1 0 = 20000 /\ usedOf res.1 1 = 23000 /\ usedOf res.1 2 = 27000.
Proof.
  intros Hab Hac Hbc res. subst res. unfold runDemo.
  destruct (runDemoBody_run env rnd Hab Hac Hbc)
    as (s' & -> & Hroom & Hus & _ & [U0 _] & [U1 _] & [U2 _]).
  simpl. do 3 (split; [done|]). by repeat split.
Qed.

Lemma runDemo_completes_witness :
  userIdOf (counting "d" 0) <> userIdOf (counting "d" 1)
  /\ userIdOf (counting "d" 0) <> userIdOf (counting "d" 2)
  /\ userIdOf (counting "d" 1) <> userIdOf (counting "d" 2)
  /\ (runDemo (counting "d") zeros newDemo).2 = None
  /\ usedOf (runDemo (counting "d") zeros newDemo).1 2 = 27000.
Proof.
  assert (userIdOf (counting "d" 0) <> userIdOf (counting "d" 1)) as Hab by discriminate.
  assert (userIdOf (counting "d" 0) <> userIdOf (counting "d" 2)) as Hac by discriminate.
  assert (userIdOf (counting "d" 1) <> userIdOf (counting "d" 2)) as Hbc by discriminate.
  do 3 (split; [assumption|]).
  pose proof (runDemo_completes (counting "d") zeros Hab Hac Hbc) as (H1 & _ & _ & _ & _ & H2).
  split; [exact H1 | exact H2].
Defined.

(** [main] never gets to its end: when the demo's three users are given
    different identifiers, the performance test that follows [runDemo] on
    the same demo throws [SlotFull] for slot 2, which the demo has left with
    27000 of its 30720 bytes used, and [main] is rejected with that error. *)
Theorem main_rejects env1 rnd1 env2 rnd2 :
  userIdOf (env1 0%nat) <> userIdOf (env1 1%nat) ->
  userIdOf (env1 0%nat) <> userIdOf (env1 2%nat) ->
  userIdOf (env1 1%nat) <> userIdOf (env1 2%nat) ->
  (main env1 rnd1 env2 rnd2).2 = Thrown (SlotFull 2).
Proof.
  intros Hab Hac Hbc. unfold main, runDemo.
  destruct (runDemoBody_run env1 rnd1 Hab Hac Hbc)
    as (s' & -> & _ & _ & _ & [U0 C0] & [U1 C1] & [U2 C2]).
  simpl. destruct share_twenty as (E0 & E1 & E2).
  destruct (performanceTest_run env2 rnd2 s')
    as [(_ & Hroom & _)|(j & Hthrown & Hpos & Hfull)].
  - specialize (Hroom 2). rewrite E2, U2, C2 in Hroom. lia.
  - pose proof (share_slot 20 0 j Hpos) as Hj.
    assert (j = 0 \/ j = 1 \/ j = 2) as [-> | [-> | ->]] by lia.
    + rewrite E0, U0, C0 in Hfull. lia.
    + rewrite E1, U1, C1 in Hfull. lia.
    + done.
Qed.

Lemma main_rejects_witness :
  userIdOf (counting "d" 0) <> userIdOf (counting "d" 1)
  /\ userIdOf (counting "d" 0) <> userIdOf (counting "d" 2)
  /\ userIdOf (counting "d" 1) <> userIdOf (counting "d" 2)
  /\ (main (counting "d") zeros (counting "p") zeros).2 = Thrown (SlotFull 2).
Proof.
  assert (userIdOf (counting "d" 0) <> userIdOf (counting "d" 1)) as Hab by discriminate.
  assert (userIdOf (counting "d" 0) <> userIdOf (counting "d" 2)) as Hac by discriminate.
  assert (userIdOf (counting "d" 1) <> userIdOf (counting "d" 2)) as Hbc by discriminate.
  do 3 (split; [assumption|]).
  exact (main_rejects (counting "d") zeros (counting "p") zeros Hab Hac Hbc).
Defined.

End ScriptsFacts.
